(** * EasyBackups: a shallow embedding of [EasyBackup.py]

    The program reads a small backup language, runs the statements that
    carry no time expression at once, and polls the others once a minute.
    This file embeds

    - the time conditions [every_minutes] and [specific_time],
    - the executor [DirectBackupTask._run_backup] and the conditional
      wrapper [TimeConditionedBackup],
    - the loader [App._parse_run] and the poll loop [App.run],

    and states the properties of the specification over that embedding.

    Modelling choices.
    - Python exceptions are values of [exn]; an effectful function is a
      function [World -> (exn + A) * World]: the world after a raise is
      the world at the raise.
    - The filesystem calls ([os.path], [shutil], [open]) are the fields
      of the class [FileSystem]: the program is verified against every
      implementation of them.  [SampleFS] is one implementation, used to
      run the program on concrete inputs.
    - [datetime.datetime.now()] reads an oracle: the [n]-th call returns
      [clock n], an arbitrary function.  Nothing makes successive readings
      increase: the wall clock of a naive local time does not.
    - The float [delta.total_seconds() / 60] is an exact rational. *)

From Stdlib Require Import ZArith QArith Qround String Ascii List Bool Lia.
Import ListNotations.

Local Open Scope string_scope.
Local Open Scope list_scope.
Local Open Scope Z_scope.

Notation "s1 +++ s2" := (String.append s1 s2)
  (at level 60, right associativity).

(** ** Python values the program uses *)

(** The exceptions that can leave a function of the program. *)
Inductive exn : Type :=
| ZeroDivisionError
| AssertionError
| IndexError
| AttributeError
| ValueError
| UnexpectedInput (msg : string)      (* lark: the text is not in the grammar *)
| OSError (name : string) (path : string).

(** [str.isspace] on the ASCII range. *)
Definition isspace (c : ascii) : bool :=
  let n := N_of_ascii c in
  (((9 <=? n) && (n <=? 13)) || ((28 <=? n) && (n <=? 32)))%N.

Fixpoint lstrip (s : string) : string :=
  match s with
  | String c s' => if isspace c then lstrip s' else s
  | EmptyString => EmptyString
  end.

Fixpoint rev_string (s acc : string) : string :=
  match s with
  | String c s' => rev_string s' (String c acc)
  | EmptyString => acc
  end.

Definition rstrip (s : string) : string :=
  rev_string (lstrip (rev_string s "")) "".

(** [str.strip()]. *)
Definition strip (s : string) : string := rstrip (lstrip s).

(** [fmt.format(args)] for the replacement field [{}], the only one the
    program writes; every call of the program passes as many arguments as
    its format has fields. *)
Fixpoint format (fmt : string) (args : list string) : string :=
  match fmt with
  | String "{" (String "}" rest) =>
      match args with
      | a :: args' => a +++ format rest args'
      | [] => rest
      end
  | String c rest => String c (format rest args)
  | EmptyString => EmptyString
  end.

Definition digit_of (c : ascii) : option Z :=
  let n := N_of_ascii c in
  if ((48 <=? n) && (n <=? 57))%N then Some (Z.of_N n - 48) else None.

(** Decimal digits, with single underscores between digits. *)
Fixpoint int_body (s : string) (acc : Z) (after_digit : bool) : option Z :=
  match s with
  | EmptyString => if after_digit then Some acc else None
  | String c s' =>
      match digit_of c with
      | Some d => int_body s' (10 * acc + d) true
      | None =>
          if (Ascii.eqb c "_" && after_digit)%bool
          then int_body s' acc false
          else None
      end
  end.

Definition or_ValueError (o : option Z) : exn + Z :=
  match o with Some n => inr n | None => inl ValueError end.

(** [int(s)] on a string, in base 10. *)
Definition int_str (s : string) : exn + Z :=
  match strip s with
  | String "+" r => or_ValueError (int_body r 0 false)
  | String "-" r => or_ValueError (option_map Z.opp (int_body r 0 false))
  | r => or_ValueError (int_body r 0 false)
  end.

(** [int(x)] on a float: the fractional part is dropped (rounding toward
    zero). *)
Definition int_Q (x : Q) : Z := Z.quot (Qnum x) (Zpos (Qden x)).

(** ** datetime *)

(** A naive [datetime.datetime].  The date is kept as its proleptic
    Gregorian ordinal ([toordinal()]), which is all that subtraction reads
    of it. *)
Record datetime : Type := mkDatetime {
  ordinal : Z;
  hour : Z;
  minute : Z;
  second : Z;
  microsecond : Z
}.

(** A normalised [datetime.timedelta]. *)
Record timedelta : Type := mkTimedelta {
  days : Z;
  seconds : Z;
  microseconds : Z
}.

Definition us_per_second : Z := 1000000.
Definition us_per_day : Z := 86400 * us_per_second.

(** [timedelta(days, seconds, microseconds)]: the constructor carries the
    overflow of each field into the next, leaving
    [0 <= seconds < 86400] and [0 <= microseconds < 10**6]. *)
Definition timedelta_new (d s us : Z) : timedelta :=
  let total := (d * 86400 + s) * us_per_second + us in
  {| days := total / us_per_day;
     seconds := (total mod us_per_day) / us_per_second;
     microseconds := total mod us_per_second |}.

(** [datetime.__sub__] on two naive datetimes. *)
Definition datetime_sub (self other : datetime) : timedelta :=
  let secs1 := second self + minute self * 60 + hour self * 3600 in
  let secs2 := second other + minute other * 60 + hour other * 3600 in
  timedelta_new (ordinal self - ordinal other) (secs1 - secs2)
                (microsecond self - microsecond other).

(** [timedelta.total_seconds()]. *)
Definition total_seconds (td : timedelta) : Q :=
  ((days td * 86400 + seconds td) * 10 ^ 6 + microseconds td) # 1000000.

(** Microseconds from the start of day 0 to a datetime. *)
Definition to_us (dt : datetime) : Z :=
  (ordinal dt * 86400 + (second dt + minute dt * 60 + hour dt * 3600))
  * us_per_second + microsecond dt.

(** ** The world the program runs in *)

Inductive level : Type := DEBUG | INFO | ERROR.

(** What the program does to its collaborators, in the order it does it. *)
Inductive event : Type :=
| Log (lvl : level) (msg : string)              (* log.debug/info/error *)
| Rmtree (path : string)                         (* shutil.rmtree *)
| Copytree (src dst : string)                    (* shutil.copytree *)
| Copy2 (src dst : string)                       (* shutil.copy2 *)
| Sleep (secs : Z).                              (* time.sleep *)

(** The filesystem collaborator.  A mutating call returns the filesystem
    it leaves, also when it raises. *)
Class FileSystem (FS : Type) : Type := {
  os_path_exists : FS -> string -> bool;
  os_path_isdir : FS -> string -> bool;
  os_path_isfile : FS -> string -> bool;
  read_text : FS -> string -> exn + string;          (* open(p).read() *)
  shutil_rmtree : string -> FS -> (exn + unit) * FS;
  shutil_copytree : string -> string -> FS -> (exn + unit) * FS;
  shutil_copy2 : string -> string -> FS -> (exn + unit) * FS
}.

Record World (FS : Type) : Type := mkWorld {
  fs : FS;                       (* the filesystem *)
  clock : nat -> datetime;       (* what the n-th datetime.now() returns *)
  reads : nat;                   (* calls of datetime.now() so far *)
  events : list event            (* the trace, oldest first *)
}.

Arguments mkWorld {FS} _ _ _ _.
Arguments fs {FS} _.
Arguments clock {FS} _ _.
Arguments reads {FS} _.
Arguments events {FS} _.

(** An effectful computation that returns an [A] or raises. *)
Definition M (FS A : Type) : Type := World FS -> (exn + A) * World FS.

Definition ret {FS A} (a : A) : M FS A := fun w => (inr a, w).

Definition raise {FS A} (e : exn) : M FS A := fun w => (inl e, w).

Definition bind {FS A B} (c : M FS A) (k : A -> M FS B) : M FS B :=
  fun w =>
    match c w with
    | (inr a, w') => k a w'
    | (inl e, w') => (inl e, w')
    end.

(** A pure computation that may raise. *)
Definition lift {FS A} (r : exn + A) : M FS A := fun w => (r, w).

Notation "x <- c ;; k" := (bind c (fun x => k))
  (at level 61, c at next level, right associativity).
Notation "c ;; k" := (bind c (fun _ => k))
  (at level 61, right associativity).

(** [for x in xs: body(x)]. *)
Fixpoint for_each {FS A} (xs : list A) (body : A -> M FS unit) : M FS unit :=
  match xs with
  | [] => ret tt
  | x :: xs' => body x ;; for_each xs' body
  end.

(** [for x in xs: self = body(self, x)], for a loop that updates an
    object. *)
Fixpoint for_fold {FS A S} (xs : list A) (body : S -> A -> M FS S) (self : S)
  : M FS S :=
  match xs with
  | [] => ret self
  | x :: xs' => self' <- body self x ;; for_fold xs' body self'
  end.

(** The collaborators as computations. *)

Definition emit {FS} (e : event) : M FS unit :=
  fun w => (inr tt, mkWorld (fs w) (clock w) (reads w) (events w ++ [e])).

Definition log_debug {FS} (msg : string) : M FS unit := emit (Log DEBUG msg).
Definition log_info {FS} (msg : string) : M FS unit := emit (Log INFO msg).
Definition log_error {FS} (msg : string) : M FS unit := emit (Log ERROR msg).

(** [time.sleep(secs)]. *)
Definition time_sleep {FS} (secs : Z) : M FS unit := emit (Sleep secs).

(** [datetime.datetime.now()]. *)
Definition datetime_now {FS} : M FS datetime :=
  fun w => (inr (clock w (reads w)),
            mkWorld (fs w) (clock w) (S (reads w)) (events w)).

(** A query of the filesystem. *)
Definition ask {FS A} (q : FS -> A) : M FS A := fun w => (inr (q (fs w)), w).

(** A mutating call of the filesystem: the call is recorded, then made. *)
Definition call {FS} (e : event) (op : FS -> (exn + unit) * FS) : M FS unit :=
  fun w =>
    let (r, fs') := op (fs w) in
    (r, mkWorld fs' (clock w) (reads w) (events w ++ [e])).

(** ** The parse tree of lark *)

(** A [lark.Tree] has a rule name and children; a [lark.Token] is a
    string with a terminal name. *)
#[warnings="-register-all"]
Inductive node : Type :=
| Token (type_ : string) (value : string)
| Tree (data : string) (children : list node).

(** Attribute and item accesses, as Python resolves them at run time. *)

Definition node_children (n : node) : exn + list node :=
  match n with Tree _ cs => inr cs | Token _ _ => inl AttributeError end.

Definition node_data (n : node) : exn + string :=
  match n with Tree d _ => inr d | Token _ _ => inl AttributeError end.

Definition node_value (n : node) : exn + string :=
  match n with Token _ v => inr v | Tree _ _ => inl AttributeError end.

(** [n.strip()]: a token is a [str]; a tree has no such method. *)
Definition node_strip (n : node) : exn + string :=
  match n with Token _ v => inr (strip v) | Tree _ _ => inl AttributeError end.

(** [xs[i]] for a literal index [i >= 0]. *)
Definition getitem {A} (xs : list A) (i : nat) : exn + A :=
  match nth_error xs i with Some x => inr x | None => inl IndexError end.

(** Sequencing of pure computations that may raise. *)
Definition and_then {A B} (r : exn + A) (k : A -> exn + B) : exn + B :=
  match r with inr a => k a | inl e => inl e end.

(** [int(n.children[i].value)]. *)
Definition int_child_value (n : node) (i : nat) : exn + Z :=
  and_then (node_children n) (fun cs =>
  and_then (getitem cs i) (fun c =>
  and_then (node_value c) int_str)).

(** ** The program *)

Section Program.

Context {FS : Type} `{FileSystem FS}.

(** *** class BackupTask *)

Class BackupTask (T : Type) : Type := {
  _run_backup : T -> M FS unit                 (* abstract *)
}.

Definition backup_file {T} `{BackupTask T} (self : T) : M FS unit :=
  _run_backup self.

(** *** class DirectBackupTask(BackupTask) *)

Record DirectBackupTask : Type := mkDirectBackupTask {
  _source : string;
  _destination : string
}.

Definition DirectBackupTask_run_backup (self : DirectBackupTask) : M FS unit :=
  let src := _source self in
  let dst := _destination self in
  src_exists <- ask (fun d => os_path_exists d src) ;;
  if src_exists : bool then
    log_info (format "Backuping {} to {}" [src; dst]) ;;
    src_isdir <- ask (fun d => os_path_isdir d src) ;;
    if src_isdir : bool then
      log_debug (format "{} is a directory" [src]) ;;
      dst_exists <- ask (fun d => os_path_exists d dst) ;;
      (if dst_exists : bool then
         log_debug (format "{} destination ({}) exists removing" [src; dst]) ;;
         call (Rmtree dst) (shutil_rmtree dst) ;;
         log_debug (format "Destination {} removed" [dst])
       else ret tt) ;;
      log_debug (format "Copying {} directory to {}" [src; dst]) ;;
      call (Copytree src dst) (shutil_copytree src dst) ;;
      log_debug (format "Copy of {} to {} done" [src; dst])
    else
      log_debug (format "Copying {} file to {}" [src; dst]) ;;
      call (Copy2 src dst) (shutil_copy2 src dst) ;;
      log_debug (format "Copy of {} to {} done" [src; dst])
  else
    log_error
      (format "Cannot backup {} to {} because source does not exist"
              [src; dst]).

#[export] Instance DirectBackupTask_BackupTask : BackupTask DirectBackupTask :=
  {| _run_backup := DirectBackupTask_run_backup |}.

(** *** class TimeConditionedBackup(BackupTask) *)

Record TimeConditionedBackup : Type := mkTimeConditionedBackup {
  _creation_date : datetime;
  _backup_task : DirectBackupTask;
  _time_condition : datetime -> M FS bool
}.

(** [TimeConditionedBackup.__init__]; [callable] holds of every closure. *)
Definition TimeConditionedBackup_init (source destination : string)
    (time_condition_lambda : datetime -> M FS bool) : M FS TimeConditionedBackup :=
  now <- datetime_now ;;
  ret {| _creation_date := now;
         _backup_task := mkDirectBackupTask source destination;
         _time_condition := time_condition_lambda |}.

Definition TimeConditionedBackup_run_backup (self : TimeConditionedBackup)
  : M FS unit :=
  matched <- _time_condition self (_creation_date self) ;;
  if matched : bool then backup_file (_backup_task self) else ret tt.

#[export] Instance TimeConditionedBackup_BackupTask
  : BackupTask TimeConditionedBackup :=
  {| _run_backup := TimeConditionedBackup_run_backup |}.

(** *** The time conditions *)

(** [elapsed_minutes] of [every_minutes], from the two datetimes. *)
Definition elapsed_minutes (now begin_dt : datetime) : Z :=
  let delta := datetime_sub now begin_dt in
  int_Q (total_seconds delta / 60).

(** [every_minutes(nb_minutes)] returns the closure [condition_function];
    here the closure is the partial application.  [%] by zero raises. *)
Definition every_minutes (nb_minutes : Z) (begin_dt : datetime) : M FS bool :=
  now <- datetime_now ;;
  let delta := datetime_sub now begin_dt in
  let elapsed_minutes := int_Q (total_seconds delta / 60) in
  if nb_minutes =? 0 then raise ZeroDivisionError
  else ret (elapsed_minutes mod nb_minutes =? 0).

(** [specific_time(hour, minute)]. *)
Definition specific_time (hour_ minute_ : Z) (begin_dt : datetime) : M FS bool :=
  now <- datetime_now ;;
  ret ((hour now =? hour_) && (minute now =? minute_))%bool.

(** *** class App *)

(** [Lark(grammar).parse(program)].  The grammar file [backup_dsl.ebnf] is
    not among the sources: the parser is a parameter of the program. *)
Variable lark_parse : string -> string -> exn + node.

Record App : Type := mkApp {
  _program : string;
  _conditional_backups : list TimeConditionedBackup
}.

(** [open(path).read()]. *)
Definition open_read (path : string) : M FS string :=
  fun w => (read_text (fs w) path, w).

(** [self._conditional_backups.append(TimeConditionedBackup(...))]. *)
Definition append_conditional (self : App) (source destination : string)
    (cond : datetime -> M FS bool) : M FS App :=
  backup_task <- TimeConditionedBackup_init source destination cond ;;
  ret {| _program := _program self;
         _conditional_backups := _conditional_backups self ++ [backup_task] |}.

(** The body of the loop of [_parse_run], for one child [inst] of the
    tree. *)
Definition parse_run_inst (self : App) (inst : node) : M FS App :=
  inst_children <- lift (node_children inst) ;;
  source <- lift (and_then (getitem inst_children 0) node_strip) ;;
  destination <- lift (and_then (getitem inst_children 1) node_strip) ;;
  if (length inst_children =? 2)%nat then
    let backup_task := mkDirectBackupTask source destination in
    log_info "Running backup task" ;;
    backup_file backup_task ;;
    ret self
  else
    time_type_data <- lift (getitem inst_children 2) ;;
    log_info "Registering backup task with time condition" ;;
    type_tag <- lift (node_data time_type_data) ;;
    if (type_tag =? "avg_time_expresion")%string then
      time_data <- lift (and_then (node_children time_type_data)
                                  (fun cs => getitem cs 0)) ;;
      tag <- lift (node_data time_data) ;;
      if (tag =? "every_nb_minutes")%string then
        nb_minutes <- lift (int_child_value time_data 0) ;;
        append_conditional self source destination (every_minutes nb_minutes)
      else if (tag =? "every_nb_hours")%string then
        nb_hours <- lift (int_child_value time_data 0) ;;
        append_conditional self source destination
                           (every_minutes (nb_hours * 60))
      else if (tag =? "every_hour")%string then
        append_conditional self source destination (every_minutes 60)
      else if (tag =? "every_minute")%string then
        append_conditional self source destination (every_minutes 1)
      else ret self
    else if (type_tag =? "precise_time_expression")%string then
      time_data_hour <- lift (int_child_value time_type_data 0) ;;
      time_data_minute <- lift (int_child_value time_type_data 1) ;;
      append_conditional self source destination
                         (specific_time time_data_hour time_data_minute)
    else ret self.

(** [App._parse_run]. *)
Definition App_parse_run (self : App) : M FS App :=
  grammar <- open_read "backup_dsl.ebnf" ;;
  tree <- lift (lark_parse grammar (_program self)) ;;
  insts <- lift (node_children tree) ;;
  for_fold insts parse_run_inst self.

(** [App.__init__]. *)
Definition App_init (program_file_path : string) : M FS App :=
  is_file <- ask (fun d => os_path_isfile d program_file_path) ;;
  if is_file : bool then
    program <- open_read program_file_path ;;
    App_parse_run {| _program := program; _conditional_backups := [] |}
  else raise AssertionError.

(** How an observation of [App.run] ends: the method returned, or it is
    still in its [while True]. *)
Inductive run_state : Type := Returned | Polling.

(** The [while True] of [App.run], observed for [ticks] passes. *)
Fixpoint poll (ticks : nat) (self : App) : M FS run_state :=
  match ticks with
  | O => ret Polling
  | S ticks' =>
      for_each (_conditional_backups self) backup_file ;;
      log_info "Sleeping for a minute" ;;
      time_sleep 60 ;;
      poll ticks' self
  end.

(** [App.run]. *)
Definition App_run (ticks : nat) (self : App) : M FS run_state :=
  if (0 <? length (_conditional_backups self))%nat
  then poll ticks self
  else ret Returned.

(** The foreground branch of the script: [App(file).run()]. *)
Definition main (file : string) (ticks : nat) : M FS run_state :=
  app <- App_init file ;;
  App_run ticks app.

End Program.

Arguments TimeConditionedBackup FS : clear implicits.
Arguments App FS : clear implicits.
Arguments BackupTask FS T : clear implicits.

(** ** The data model of the specification *)

(** The tagged variant of section 3 of the specification. *)
Inductive TimeCondition : Type :=
| EveryNMinutes (n : Z)
| EveryHour
| EveryMinute
| EveryNHours (n : Z)
| AtFixedTime (hour_ minute_ : Z).

(** The elapsed minutes as the specification words them: the floor of
    the elapsed seconds over sixty. *)
Definition floor_minutes (created_at now : datetime) : Z :=
  Qfloor (total_seconds (datetime_sub now created_at) / 60).

(** [matches(condition, created_at, now)] as section 4.2 of the
    specification words it, the three abbreviations read through the
    equivalences of section 3. *)
Definition matches (c : TimeCondition) (created_at now : datetime) : bool :=
  match c with
  | EveryNMinutes n => floor_minutes created_at now mod n =? 0
  | EveryHour => floor_minutes created_at now mod 60 =? 0
  | EveryMinute => floor_minutes created_at now mod 1 =? 0
  | EveryNHours n => floor_minutes created_at now mod (60 * n) =? 0
  | AtFixedTime h m => ((hour now =? h) && (minute now =? m))%bool
  end.

(** The instruction of section 3: a parsed statement, before any
    timestamp is attached. *)
Record BackupInstruction : Type := mkBackupInstruction {
  source : string;
  destination : string;
  condition : option TimeCondition
}.

(** The time expression of a statement, read off its subtree; the tags
    are those [_parse_run] tests. *)
Definition condition_of_tree (time_type_data : node) : exn + TimeCondition :=
  and_then (node_data time_type_data) (fun type_tag =>
  if (type_tag =? "avg_time_expresion")%string then
    and_then (node_children time_type_data) (fun cs =>
    and_then (getitem cs 0) (fun time_data =>
    and_then (node_data time_data) (fun tag =>
    if (tag =? "every_nb_minutes")%string then
      and_then (int_child_value time_data 0) (fun n => inr (EveryNMinutes n))
    else if (tag =? "every_nb_hours")%string then
      and_then (int_child_value time_data 0) (fun n => inr (EveryNHours n))
    else if (tag =? "every_hour")%string then inr EveryHour
    else if (tag =? "every_minute")%string then inr EveryMinute
    else inl ValueError)))
  else if (type_tag =? "precise_time_expression")%string then
    and_then (int_child_value time_type_data 0) (fun h =>
    and_then (int_child_value time_type_data 1) (fun m =>
    inr (AtFixedTime h m)))
  else inl ValueError).

(** The instruction of one statement of the tree. *)
Definition instruction_of_tree (inst : node) : exn + BackupInstruction :=
  and_then (node_children inst) (fun cs =>
  and_then (and_then (getitem cs 0) node_strip) (fun src =>
  and_then (and_then (getitem cs 1) node_strip) (fun dst =>
  if (length cs =? 2)%nat then inr (mkBackupInstruction src dst None)
  else
    and_then (getitem cs 2) (fun time_type_data =>
    and_then (condition_of_tree time_type_data) (fun c =>
    inr (mkBackupInstruction src dst (Some c))))))).

(** The ordered instruction list of a tree: the parser of section 4.1 of
    the specification, after lark. *)
Fixpoint instructions_of_trees (insts : list node) : exn + list BackupInstruction :=
  match insts with
  | [] => inr []
  | inst :: insts' =>
      and_then (instruction_of_tree inst) (fun i =>
      and_then (instructions_of_trees insts') (fun is_ => inr (i :: is_)))
  end.

Section Scheduler.

Context {FS : Type} `{FileSystem FS}.

(** The closure that evaluates a condition of the specification. *)
Definition closure_of (c : TimeCondition) : datetime -> M FS bool :=
  match c with
  | EveryNMinutes n => every_minutes n
  | EveryHour => every_minutes 60
  | EveryMinute => every_minutes 1
  | EveryNHours n => every_minutes (n * 60)
  | AtFixedTime h m => specific_time h m
  end.

(** The step of the scheduler of section 4.5 of the specification for one
    instruction: an unconditional instruction is executed, a conditional
    one is registered with the time of its registration. *)
Definition schedule (self : App FS) (i : BackupInstruction) : M FS (App FS) :=
  match condition i with
  | None =>
      log_info "Running backup task" ;;
      backup_file (mkDirectBackupTask (source i) (destination i)) ;;
      ret self
  | Some c =>
      log_info "Registering backup task with time condition" ;;
      append_conditional self (source i) (destination i) (closure_of c)
  end.

(** The scheduler's load over the instruction list. *)
Definition load (is_ : list BackupInstruction) (self : App FS) : M FS (App FS) :=
  for_fold is_ schedule self.

End Scheduler.

(** ** A grammar and a filesystem to run the program on *)

(** The words of a text: blanks separate them, and a colon is a word of
    its own.  [flush] ends the word read so far. *)
Definition flush (cur : string) (acc : list string) : list string :=
  match cur with
  | EmptyString => acc
  | _ => rev_string cur "" :: acc
  end.

Fixpoint words_of (s cur : string) : list string :=
  match s with
  | EmptyString => flush cur []
  | String c s' =>
      if isspace c then flush cur (words_of s' "")
      else if Ascii.eqb c ":" then flush cur (":" :: words_of s' "")
      else words_of s' (String c cur)
  end.

Fixpoint all_digits (s : string) : bool :=
  match s with
  | EmptyString => true
  | String c s' =>
      match digit_of c with Some _ => all_digits s' | None => false end
  end.

Definition is_INT (w : string) : bool :=
  (negb (w =? "")%string && all_digits w)%bool.

Definition is_PATH (w : string) : bool := negb (w =? ":")%string.

Definition avg_time (time_data : node) : node :=
  Tree "avg_time_expresion" [time_data].

Definition time_expr (ws : list string) : option (node * list string) :=
  match ws with
  | kw :: a :: rest =>
      if (kw =? "every")%string then
        if (a =? "hour")%string then Some (avg_time (Tree "every_hour" []), rest)
        else if (a =? "minute")%string
        then Some (avg_time (Tree "every_minute" []), rest)
        else if is_INT a then
          match rest with
          | u :: rest' =>
              if (u =? "minutes")%string
              then Some (avg_time (Tree "every_nb_minutes" [Token "INT" a]), rest')
              else if (u =? "hours")%string
              then Some (avg_time (Tree "every_nb_hours" [Token "INT" a]), rest')
              else None
          | [] => None
          end
        else None
      else if (kw =? "at")%string then
        match rest with
        | c :: m :: rest' =>
            if (is_INT a && (c =? ":")%string && is_INT m)%bool
            then Some (Tree "precise_time_expression"
                            [Token "INT" a; Token "INT" m], rest')
            else None
        | _ => None
        end
      else None
  | _ => None
  end.

Definition unexpected (ws : list string) : exn :=
  UnexpectedInput (match ws with w :: _ => w | [] => "$END" end).

Fixpoint statements (fuel : nat) (ws : list string) : exn + list node :=
  match ws, fuel with
  | [], _ => inr []
  | kw :: src :: to_ :: dst :: rest, S fuel' =>
      if ((kw =? "backup")%string && is_PATH src && (to_ =? "to")%string
          && is_PATH dst)%bool
      then
        match rest with
        | c :: rest' =>
            if (c =? ":")%string then
              match time_expr rest' with
              | Some (t, rest'') =>
                  and_then (statements fuel' rest'') (fun insts =>
                  inr (Tree "instruction"
                            [Token "PATH" src; Token "PATH" dst; t] :: insts))
              | None => inl (unexpected rest')
              end
            else
              and_then (statements fuel' rest) (fun insts =>
              inr (Tree "instruction"
                        [Token "PATH" src; Token "PATH" dst] :: insts))
        | [] => inr [Tree "instruction" [Token "PATH" src; Token "PATH" dst]]
        end
      else inl (unexpected ws)
  | _, _ => inl (unexpected ws)
  end.

(** Modelled from the spec: the grammar file [backup_dsl.ebnf] that
    [_parse_run] hands to lark is not among the sources.  This parser
    follows the grammar of section 4.1 of the specification,

      program := statement*
      statement := "backup" PATH "to" PATH [":" time_expr]
      time_expr := "every" (INT "minutes" | INT "hours" | "hour" | "minute")
                 | "at" INT ":" INT

    over the words of the text, whatever the grammar text it is given,
    and builds the tree [_parse_run] reads: one subtree per statement
    holding the two path tokens and, when the statement has one, the
    subtree of its time expression, under the rule names [_parse_run]
    tests. *)
Definition sample_parse (grammar program : string) : exn + node :=
  let ws := words_of program "" in
  and_then (statements (length ws) ws) (fun insts => inr (Tree "start" insts)).

(** A filesystem of named entries, with no hierarchy of paths: an entry
    is a file with its content or a directory with the files it holds. *)
Inductive entry : Type :=
| File (content : string)
| Dir (members : list (string * string)).

Definition disk : Type := list (string * entry).

Fixpoint lookup (d : disk) (p : string) : option entry :=
  match d with
  | [] => None
  | (q, e) :: d' => if (q =? p)%string then Some e else lookup d' p
  end.

Fixpoint remove (d : disk) (p : string) : disk :=
  match d with
  | [] => []
  | (q, e) :: d' => if (q =? p)%string then remove d' p else (q, e) :: remove d' p
  end.

Definition put (d : disk) (p : string) (e : entry) : disk :=
  (p, e) :: remove d p.

Definition sample_exists (d : disk) (p : string) : bool :=
  match lookup d p with Some _ => true | None => false end.

Definition sample_isdir (d : disk) (p : string) : bool :=
  match lookup d p with Some (Dir _) => true | _ => false end.

Definition sample_isfile (d : disk) (p : string) : bool :=
  match lookup d p with Some (File _) => true | _ => false end.

Definition sample_read (d : disk) (p : string) : exn + string :=
  match lookup d p with
  | Some (File c) => inr c
  | Some (Dir _) => inl (OSError "IsADirectoryError" p)
  | None => inl (OSError "FileNotFoundError" p)
  end.

(** [shutil.rmtree] removes a directory and refuses anything else. *)
Definition sample_rmtree (p : string) (d : disk) : (exn + unit) * disk :=
  match lookup d p with
  | Some (Dir _) => (inr tt, remove d p)
  | Some (File _) => (inl (OSError "NotADirectoryError" p), d)
  | None => (inl (OSError "FileNotFoundError" p), d)
  end.

(** [shutil.copytree] copies a directory to a path that does not exist. *)
Definition sample_copytree (src dst : string) (d : disk) : (exn + unit) * disk :=
  match lookup d src with
  | Some (Dir ms) =>
      if sample_exists d dst then (inl (OSError "FileExistsError" dst), d)
      else (inr tt, put d dst (Dir ms))
  | Some (File _) => (inl (OSError "NotADirectoryError" src), d)
  | None => (inl (OSError "FileNotFoundError" src), d)
  end.

(** [shutil.copy2] copies a file onto a path, or into a directory; a file
    is not copied onto itself. *)
Definition sample_copy2 (src dst : string) (d : disk) : (exn + unit) * disk :=
  match lookup d dst with
  | Some (Dir ms) =>
      match lookup d src with
      | Some (File c) => (inr tt, put d dst (Dir ((src, c) :: ms)))
      | Some (Dir _) => (inl (OSError "IsADirectoryError" src), d)
      | None => (inl (OSError "FileNotFoundError" src), d)
      end
  | _ =>
      if (src =? dst)%string && sample_exists d src
      then (inl (OSError "SameFileError" src), d)
      else
        match lookup d src with
        | Some (File c) => (inr tt, put d dst (File c))
        | Some (Dir _) => (inl (OSError "IsADirectoryError" src), d)
        | None => (inl (OSError "FileNotFoundError" src), d)
        end
  end.

#[export] Instance SampleFS : FileSystem disk := {|
  os_path_exists := sample_exists;
  os_path_isdir := sample_isdir;
  os_path_isfile := sample_isfile;
  read_text := sample_read;
  shutil_rmtree := sample_rmtree;
  shutil_copytree := sample_copytree;
  shutil_copy2 := sample_copy2
|}.

(** ** Vocabulary of the statements *)

(** The world after one call of [datetime.datetime.now()]. *)
Definition after_now {FS} (w : World FS) : World FS :=
  mkWorld (fs w) (clock w) (S (reads w)) (events w).

(** The world after one more event. *)
Definition after_event {FS} (e : event) (w : World FS) : World FS :=
  mkWorld (fs w) (clock w) (reads w) (events w ++ [e]).

(** The calls of the filesystem in a trace: what is left of it without
    the log records and the sleeps. *)
Definition is_fs_call (e : event) : bool :=
  match e with
  | Rmtree _ | Copytree _ _ | Copy2 _ _ => true
  | Log _ _ | Sleep _ => false
  end.

Definition fs_calls (tr : list event) : list event := filter is_fs_call tr.

(** The outcome of registering a conditional statement in the world [w]:
    the task is appended, stamped with the reading of the clock, and the
    registration is logged. *)
Definition registered {FS} (self : App FS) (src dst : string)
    (cond : datetime -> M FS bool) (w : World FS) : (exn + App FS) * World FS :=
  (inr {| _program := _program self;
          _conditional_backups :=
            _conditional_backups self ++
            [ {| _creation_date := clock w (reads w);
                 _backup_task := mkDirectBackupTask src dst;
                 _time_condition := cond |} ] |},
   after_now
     (after_event (Log INFO "Registering backup task with time condition") w)).

(** A statement with a recurrence, as a tree: the two paths and the
    subtree of the recurrence [time_data], under a rule of any name. *)
Definition every_statement (rule : string) (src dst : node) (time_data : node)
  : node :=
  Tree rule [src; dst; Tree "avg_time_expresion" [time_data]].

(** The instructions [is_] are executed one after the other from the
    world [w] to the world [w']: each one is announced in the log, runs to
    its end without raising, and hands its world to the next. *)
Inductive executed_in_order {FS} `{FileSystem FS}
  : list BackupInstruction -> World FS -> World FS -> Prop :=
| executed_nil (w : World FS) : executed_in_order [] w w
| executed_cons (i : BackupInstruction) (is_ : list BackupInstruction)
    (w w1 w2 : World FS) :
    backup_file (mkDirectBackupTask (source i) (destination i))
                (after_event (Log INFO "Running backup task") w) = (inr tt, w1) ->
    executed_in_order is_ w1 w2 ->
    executed_in_order (i :: is_) w w2.

(** What the body of the loop of [_parse_run] can make of one statement,
    for the object [self] in the world [w]: it cannot read the statement
    and raises, before or after it has logged a registration; it executes
    a backup at once; it logs a registration and drops the statement; or
    it registers a task. *)
Inductive handled {FS} `{FileSystem FS} (self : App FS) (w : World FS)
  : (exn + App FS) * World FS -> Prop :=
| handled_unreadable (e : exn) : handled self w (inl e, w)
| handled_unreadable_logged (e : exn) :
    handled self w
      (inl e,
       after_event (Log INFO "Registering backup task with time condition") w)
| handled_executed (src dst : string) :
    handled self w
      (bind (backup_file (mkDirectBackupTask src dst)) (fun _ => ret self)
            (after_event (Log INFO "Running backup task") w))
| handled_dropped :
    handled self w
      (inr self,
       after_event (Log INFO "Registering backup task with time condition") w)
| handled_registered (src dst : string) (cond : datetime -> M FS bool) :
    handled self w (registered self src dst cond w).

(** Sample worlds. *)

Definition newline : string := String (ascii_of_nat 10) "".

(** Noon of some day, and the readings of a clock that starts thirty
    seconds before, one reading a minute. *)
Definition noon_30s : datetime := mkDatetime 737000 12 0 30 0.

Definition minute_clock (n : nat) : datetime :=
  mkDatetime 737000 12 (Z.of_nat n) 0 0.

Definition sample_disk (program : string) : disk :=
  [("prog", File program);
   ("backup_dsl.ebnf", File "start: instruction*");
   ("a.txt", File "hello");
   ("d", Dir [("x", "1")]);
   ("e", Dir [("old", "0")])].

(** A world that holds the program in the file [prog], two directories
    and a file, at the first reading of the clock. *)
Definition sample_world (program : string) : World disk :=
  mkWorld (sample_disk program) minute_clock 0 [].

Definition two_copies : string :=
  "backup a.txt to b.txt" +++ newline +++ "backup d to e".

Definition copy_and_recurrence : string :=
  "backup a.txt to b.txt" +++ newline +++ "backup d to e : every 2 minutes".

Definition missing_to : string :=
  "backup a.txt to b.txt" +++ newline +++ "backup c d".

Definition self_copy_first : string :=
  "backup a.txt to a.txt" +++ newline +++ "backup a.txt to b.txt".

Definition self_copy_every_minute : string :=
  "backup a.txt to a.txt : every minute" +++ newline +++
  "backup a.txt to b.txt : every minute".

(** Two tasks registered at the first reading of the clock; the first
    copies a file onto itself. *)
Definition self_copy_task : TimeConditionedBackup disk :=
  {| _creation_date := minute_clock 0;
     _backup_task := mkDirectBackupTask "a.txt" "a.txt";
     _time_condition := every_minutes 1 |}.

Definition copy_task : TimeConditionedBackup disk :=
  {| _creation_date := minute_clock 0;
     _backup_task := mkDirectBackupTask "a.txt" "b.txt";
     _time_condition := every_minutes 1 |}.

Definition is_sleep (e : event) : bool :=
  match e with Sleep _ => true | _ => false end.

Definition is_error_record (e : event) : bool :=
  match e with Log ERROR _ => true | _ => false end.

(** ** The rest of the program *)

(** The tasks the loop of [_parse_run] registers for the instructions
    [is_] when the clock has been read [k] times: one per instruction with
    a condition, in the order of the program, each stamped with the next
    reading of the clock. *)
Fixpoint tasks_from {FS} (clock_ : nat -> datetime) (k : nat)
    (is_ : list BackupInstruction) : list (TimeConditionedBackup FS) :=
  match is_ with
  | [] => []
  | i :: is' =>
      match condition i with
      | Some c =>
          {| _creation_date := clock_ k;
             _backup_task := mkDirectBackupTask (source i) (destination i);
             _time_condition := closure_of c |}
          :: tasks_from clock_ (S k) is'
      | None => tasks_from clock_ k is'
      end
  end.

(** A task whose condition is one of the closures [_parse_run] builds. *)
Definition built_by_parse_run {FS} (t : TimeConditionedBackup FS) : Prop :=
  exists c : TimeCondition,
    forall (d : datetime) (w : World FS),
      _time_condition t d w = closure_of c d w.

(** The number of [time.sleep] calls in a trace. *)
Definition sleeps (tr : list event) : nat := length (filter is_sleep tr).

(** The rule names the two levels of the [if]/[elif] chains of
    [_parse_run] know. *)
Definition is_time_type (tag : string) : bool :=
  ((tag =? "avg_time_expresion")%string
   || (tag =? "precise_time_expression")%string)%bool.

Definition is_recurrence (tag : string) : bool :=
  ((tag =? "every_nb_minutes")%string || (tag =? "every_nb_hours")%string
   || (tag =? "every_hour")%string || (tag =? "every_minute")%string)%bool.

(** What stops [App.__init__] with the error [e] before the loop of
    [_parse_run] starts: the path is not a file ([assert]), the program or
    the grammar cannot be read, lark refuses the text, or what lark
    returns has no children. *)
Definition startup_error {FS} `{FileSystem FS}
    (lark_parse : string -> string -> exn + node)
    (file : string) (d : FS) (e : exn) : Prop :=
  (os_path_isfile d file = false /\ e = AssertionError)
  \/ (os_path_isfile d file = true /\
      (read_text d file = inl e
       \/ exists program : string,
            read_text d file = inr program /\
            (read_text d "backup_dsl.ebnf" = inl e
             \/ exists grammar : string,
                  read_text d "backup_dsl.ebnf" = inr grammar /\
                  and_then (lark_parse grammar program) node_children
                  = inl e))).

(** *** logger.py *)

Module Logger.

(** The numbers of [logging] for the levels the program uses. *)
Definition levelno (lvl : level) : Z :=
  match lvl with DEBUG => 10 | INFO => 20 | ERROR => 40 end.

Inductive handler_class : Type :=
| RotatingFileHandler (filename mode : string) (maxBytes backupCount : Z)
| StreamHandler.

(** A handler with the level and the format of its formatter. *)
Record handler : Type := mkHandler {
  handler_cls : handler_class;
  handler_level : level;
  handler_fmt : string
}.

(** The root logger of [logging], which [logging.getLogger()] returns,
    and the global [_logger] of the module: [None], or the root logger. *)
Inductive logger_ref : Type := RootLogger.

Record state : Type := mkState {
  root_level : Z;
  root_handlers : list handler;
  _logger : option logger_ref
}.

Definition file_handler : handler :=
  mkHandler (RotatingFileHandler "backup_activity.log" "a" 1000000 1) DEBUG
            "%(asctime)s :: %(levelname)s :: %(message)s".

Definition stream_handler : handler :=
  mkHandler StreamHandler INFO "%(asctime)s : %(levelname)s : %(message)s".

(** [logger()].  [opened] is what opening [backup_activity.log] gives at
    this call: the constructor of [RotatingFileHandler] opens the file,
    and raises when it cannot.  The global [_logger] and the level are set
    before the handlers are built, and stay set when the constructor
    raises; the handlers are new objects, so [addHandler] appends them.  A
    call that finds [_logger] set opens nothing. *)
Definition logger (opened : exn + unit) (s : state)
  : (exn + logger_ref) * state :=
  match _logger s with
  | None =>
      match opened with
      | inl e =>
          (inl e,
           {| root_level := levelno DEBUG;
              root_handlers := root_handlers s;
              _logger := Some RootLogger |})
      | inr _ =>
          (inr RootLogger,
           {| root_level := levelno DEBUG;
              root_handlers :=
                root_handlers s ++ [file_handler; stream_handler];
              _logger := Some RootLogger |})
      end
  | Some l => (inr l, s)
  end.

(** Calls of [logger()] in a row, one per outcome of the opening. *)
Fixpoint calls (opens : list (exn + unit)) (s : state) : state :=
  match opens with
  | [] => s
  | opened :: opens' => calls opens' (snd (logger opened s))
  end.

(** The handlers [logging] hands a record of level [lvl] to, when it is
    logged on the root logger: none below the level of the logger, else
    those whose own level the record reaches. *)
Definition handled_by (s : state) (lvl : level) : list handler :=
  if levelno lvl <? root_level s then []
  else filter (fun h => levelno (handler_level h) <=? levelno lvl)
              (root_handlers s).

End Logger.

(** ** Properties *)

(** *** Elapsed time in microseconds *)

Lemma timedelta_new_total (d s us : Z) :
  (days (timedelta_new d s us) * 86400 + seconds (timedelta_new d s us))
  * 10 ^ 6 + microseconds (timedelta_new d s us)
  = (d * 86400 + s) * us_per_second + us.
Proof.
  unfold timedelta_new; cbn [days seconds microseconds].
  set (t := (d * 86400 + s) * us_per_second + us).
  unfold us_per_day, us_per_second.
  change (10 ^ 6) with 1000000.
  pose proof (Z.div_mod t (86400 * 1000000) ltac:(lia)) as Hd.
  pose proof (Z.div_mod (t mod (86400 * 1000000)) 1000000 ltac:(lia)) as Hs.
  assert (Hm : (t mod (86400 * 1000000)) mod 1000000 = t mod 1000000).
  { apply Z.mod_mod_divide. exists 86400. lia. }
  rewrite Hm in Hs. lia.
Qed.

Lemma datetime_sub_total (a b : datetime) :
  (days (datetime_sub a b) * 86400 + seconds (datetime_sub a b)) * 10 ^ 6
  + microseconds (datetime_sub a b) = to_us a - to_us b.
Proof.
  unfold datetime_sub. rewrite timedelta_new_total.
  unfold to_us, us_per_second. lia.
Qed.

Lemma elapsed_minutes_us (now begin_dt : datetime) :
  elapsed_minutes now begin_dt = (to_us now - to_us begin_dt) ÷ 60000000.
Proof.
  unfold elapsed_minutes, int_Q, total_seconds.
  rewrite datetime_sub_total.
  cbn [Qdiv Qmult Qinv Qnum Qden].
  now rewrite Z.mul_1_r.
Qed.

Lemma floor_minutes_us (created_at now : datetime) :
  floor_minutes created_at now = (to_us now - to_us created_at) / 60000000.
Proof.
  unfold floor_minutes, Qfloor, total_seconds.
  rewrite datetime_sub_total.
  cbn [Qdiv Qmult Qinv Qnum Qden].
  now rewrite Z.mul_1_r.
Qed.

(** From the registration on, truncation and floor agree. *)
Lemma elapsed_minutes_floor (created_at now : datetime) :
  to_us created_at <= to_us now ->
  elapsed_minutes now created_at = floor_minutes created_at now.
Proof.
  intros Hle.
  rewrite elapsed_minutes_us, floor_minutes_us.
  apply Z.quot_div_nonneg; lia.
Qed.

Section TimeConditions.

Context {FS : Type}.

(** *** The two closures *)

Lemma every_minutes_eval (n : Z) (begin_dt : datetime) (w : World FS) :
  every_minutes n begin_dt w =
  if n =? 0 then (inl ZeroDivisionError, after_now w)
  else (inr (elapsed_minutes (clock w (reads w)) begin_dt mod n =? 0),
        after_now w).
Proof.
  unfold every_minutes, bind, datetime_now, elapsed_minutes, after_now.
  destruct (n =? 0); reflexivity.
Qed.

(** C1, as amended.  For a positive [n], [every_minutes n] returns true
    exactly when the elapsed minutes, the quotient truncated toward zero
    that [int] computes, are a multiple of [n]; it reads the clock once and
    does nothing else.  From the registration on ([created_at] not after
    [now]) the truncation is the floor of the specification, so the answer
    is that of [matches]; and at zero elapsed minutes the answer is
    true. *)
Theorem every_minutes_matches (n : Z) (created_at : datetime) (w : World FS) :
  0 < n ->
  exists b : bool,
    every_minutes n created_at w = (inr b, after_now w)
    /\ (b = true <->
        elapsed_minutes (clock w (reads w)) created_at mod n = 0)
    /\ (to_us created_at <= to_us (clock w (reads w)) ->
        elapsed_minutes (clock w (reads w)) created_at
        = floor_minutes created_at (clock w (reads w))
        /\ b = matches (EveryNMinutes n) created_at (clock w (reads w)))
    /\ (elapsed_minutes (clock w (reads w)) created_at = 0 -> b = true).
Proof.
  intros Hn.
  exists (elapsed_minutes (clock w (reads w)) created_at mod n =? 0).
  rewrite every_minutes_eval.
  replace (n =? 0) with false by (symmetry; apply Z.eqb_neq; lia).
  repeat split.
  - apply Z.eqb_eq.
  - apply Z.eqb_eq.
  - now apply elapsed_minutes_floor.
  - cbn [matches]. now rewrite elapsed_minutes_floor.
  - intros ->. now rewrite Z.mod_0_l by lia.
Qed.

(** C5.  [specific_time h m] returns true exactly when the hour and the
    minute of the clock are [h] and [m]; the answer is that of [matches],
    and the creation date plays no part: two tasks created at different
    times get the same answer, in the same world after. *)
Theorem specific_time_matches (h m : Z) (c1 c2 : datetime) (w : World FS) :
  specific_time h m c1 w
  = (inr (matches (AtFixedTime h m) c1 (clock w (reads w))), after_now w)
  /\ (matches (AtFixedTime h m) c1 (clock w (reads w)) = true <->
      hour (clock w (reads w)) = h /\ minute (clock w (reads w)) = m)
  /\ specific_time h m c1 w = specific_time h m c2 w.
Proof.
  split; [reflexivity | split; [| reflexivity]].
  cbn [matches].
  rewrite andb_true_iff, !Z.eqb_eq.
  tauto.
Qed.

End TimeConditions.

(** *** The trace and the monad *)

Lemma fs_calls_app (tr1 tr2 : list event) :
  fs_calls (tr1 ++ tr2) = fs_calls tr1 ++ fs_calls tr2.
Proof. apply filter_app. Qed.

Lemma fs_calls_log (tr : list event) (lvl : level) (msg : string) :
  fs_calls (tr ++ [Log lvl msg]) = fs_calls tr.
Proof. rewrite fs_calls_app. cbn. apply app_nil_r. Qed.

Lemma fs_calls_call (tr : list event) (e : event) :
  is_fs_call e = true -> fs_calls (tr ++ [e]) = fs_calls tr ++ [e].
Proof. intros He. rewrite fs_calls_app. cbn. now rewrite He. Qed.

Lemma bind_inr {FS A B} (c : M FS A) (k : A -> M FS B) (w w' : World FS) (a : A) :
  c w = (inr a, w') -> bind c k w = k a w'.
Proof. unfold bind. now intros ->. Qed.

Lemma bind_inl {FS A B} (c : M FS A) (k : A -> M FS B) (w w' : World FS) (e : exn) :
  c w = (inl e, w') -> bind c k w = (inl e, w').
Proof. unfold bind. now intros ->. Qed.

Lemma bind_assoc {FS A B C} (c : M FS A) (k : A -> M FS B) (k' : B -> M FS C)
    (w : World FS) :
  bind (bind c k) k' w = bind c (fun a => bind (k a) k') w.
Proof. unfold bind. destruct (c w) as [[e | a] w']; reflexivity. Qed.

Lemma for_each_app {FS A} (xs ys : list A) (body : A -> M FS unit) (w : World FS) :
  for_each (xs ++ ys) body w = bind (for_each xs body) (fun _ => for_each ys body) w.
Proof.
  revert w. induction xs as [| x xs IH]; intros w.
  - reflexivity.
  - cbn [app for_each]. unfold bind.
    destruct (body x w) as [[e | []] w1]; [reflexivity | exact (IH w1)].
Qed.

Section Executor.

Context {FS : Type} `{FileSystem FS}.

(** *** The executor *)

(** C8.  When the source does not exist, the executor logs one error
    record and returns: it calls nothing of the filesystem, which it
    leaves as it was, destination included, and whatever follows the
    execution (the other tasks, the later ticks) goes on from there. *)
Theorem source_missing_is_reported (src dst : string) (w : World FS) :
  os_path_exists (fs w) src = false ->
  backup_file (mkDirectBackupTask src dst) w
  = (inr tt,
     after_event
       (Log ERROR (format "Cannot backup {} to {} because source does not exist"
                          [src; dst])) w)
  /\ fs (snd (backup_file (mkDirectBackupTask src dst) w)) = fs w
  /\ fs_calls (events (snd (backup_file (mkDirectBackupTask src dst) w)))
     = fs_calls (events w)
  /\ forall (B : Type) (k : unit -> M FS B),
       bind (backup_file (mkDirectBackupTask src dst)) k w
       = k tt (snd (backup_file (mkDirectBackupTask src dst) w)).
Proof.
  intros Hsrc.
  assert (Hrun : backup_file (mkDirectBackupTask src dst) w
                 = (inr tt,
                    after_event
                      (Log ERROR
                         (format "Cannot backup {} to {} because source does not exist"
                                 [src; dst])) w)).
  { unfold backup_file; cbn [_run_backup DirectBackupTask_BackupTask].
    unfold DirectBackupTask_run_backup, bind, ask; cbn [_source _destination].
    now rewrite Hsrc. }
  rewrite Hrun. cbn [snd]. repeat split.
  - unfold after_event; cbn [events]. apply fs_calls_log.
  - intros B k. now rewrite (bind_inr _ _ _ _ _ Hrun).
Qed.

(** What [_run_backup] does once the source is known to be a directory,
    the log records left out: the result, the filesystem left and the
    calls made. *)
Lemma run_backup_directory (src dst : string) (w : World FS) :
  os_path_exists (fs w) src = true ->
  os_path_isdir (fs w) src = true ->
  exists w' : World FS,
    backup_file (mkDirectBackupTask src dst) w
    = (if os_path_exists (fs w) dst then
         match shutil_rmtree dst (fs w) with
         | (inr _, fs1) => fst (shutil_copytree src dst fs1)
         | (inl e, _) => inl e
         end
       else fst (shutil_copytree src dst (fs w)), w')
    /\ fs w'
       = (if os_path_exists (fs w) dst then
            match shutil_rmtree dst (fs w) with
            | (inr _, fs1) => snd (shutil_copytree src dst fs1)
            | (inl _, fs1) => fs1
            end
          else snd (shutil_copytree src dst (fs w)))
    /\ fs_calls (events w')
       = fs_calls (events w) ++
         (if os_path_exists (fs w) dst then
            match shutil_rmtree dst (fs w) with
            | (inr _, _) => [Rmtree dst; Copytree src dst]
            | (inl _, _) => [Rmtree dst]
            end
          else [Copytree src dst]).
Proof.
  intros Hsrc Hdir.
  unfold backup_file; cbn [_run_backup DirectBackupTask_BackupTask].
  unfold DirectBackupTask_run_backup; cbn [_source _destination].
  cbv [bind ask call log_info log_debug emit ret]; cbn -[format fs_calls].
  rewrite Hsrc, Hdir; cbn -[format fs_calls].
  destruct (os_path_exists (fs w) dst); cbn -[format fs_calls].
  - destruct (shutil_rmtree dst (fs w)) as [[e | []] fs1];
      cbn -[format fs_calls].
    + eexists; split; [reflexivity |]. cbn [fs events]. split; [reflexivity |].
      now rewrite fs_calls_call, !fs_calls_log by reflexivity.
    + destruct (shutil_copytree src dst fs1) as [[e | []] fs2];
        cbn -[format fs_calls];
        (eexists; split; [reflexivity |]; cbn [fs events]; split; [reflexivity |]);
        rewrite ?fs_calls_log;
        rewrite (fs_calls_call _ (Copytree src dst)) by reflexivity;
        rewrite ?fs_calls_log;
        rewrite (fs_calls_call _ (Rmtree dst)) by reflexivity;
        rewrite ?fs_calls_log;
        now rewrite <- app_assoc.
  - destruct (shutil_copytree src dst (fs w)) as [[e | []] fs2];
      cbn -[format fs_calls];
      (eexists; split; [reflexivity |]; cbn [fs events]; split; [reflexivity |]);
      rewrite ?fs_calls_log;
      rewrite (fs_calls_call _ (Copytree src dst)) by reflexivity;
      now rewrite ?fs_calls_log.
Qed.

(** C7, as amended.  When the source is a directory and the destination
    exists, [shutil.rmtree] is called on the destination first.  When that
    call returns, the source is then copied ([shutil.copytree]) onto the
    filesystem the removal left: these are the two calls, in that order,
    and the result and the filesystem are those of the copy.  When the
    removal raises, its error leaves the executor and nothing is copied.
    When the destination does not exist, the copy is the only call, made
    on the filesystem as it was. *)
Theorem directory_is_replaced (src dst : string) (w : World FS) :
  os_path_exists (fs w) src = true ->
  os_path_isdir (fs w) src = true ->
  (os_path_exists (fs w) dst = true ->
   forall fs1 : FS,
     shutil_rmtree dst (fs w) = (inr tt, fs1) ->
     fst (backup_file (mkDirectBackupTask src dst) w)
     = fst (shutil_copytree src dst fs1)
     /\ fs (snd (backup_file (mkDirectBackupTask src dst) w))
        = snd (shutil_copytree src dst fs1)
     /\ fs_calls (events (snd (backup_file (mkDirectBackupTask src dst) w)))
        = fs_calls (events w) ++ [Rmtree dst; Copytree src dst])
  /\ (os_path_exists (fs w) dst = true ->
      forall (e : exn) (fs1 : FS),
        shutil_rmtree dst (fs w) = (inl e, fs1) ->
        fst (backup_file (mkDirectBackupTask src dst) w) = inl e
        /\ fs (snd (backup_file (mkDirectBackupTask src dst) w)) = fs1
        /\ fs_calls (events (snd (backup_file (mkDirectBackupTask src dst) w)))
           = fs_calls (events w) ++ [Rmtree dst])
  /\ (os_path_exists (fs w) dst = false ->
      fst (backup_file (mkDirectBackupTask src dst) w)
      = fst (shutil_copytree src dst (fs w))
      /\ fs (snd (backup_file (mkDirectBackupTask src dst) w))
         = snd (shutil_copytree src dst (fs w))
      /\ fs_calls (events (snd (backup_file (mkDirectBackupTask src dst) w)))
         = fs_calls (events w) ++ [Copytree src dst]).
Proof.
  intros Hsrc Hdir.
  destruct (run_backup_directory src dst w Hsrc Hdir) as (w' & Hrun & Hfs & Hcalls).
  rewrite Hrun; cbn [fst snd]. rewrite Hfs, Hcalls.
  split; [| split].
  - intros -> fs1 ->. auto.
  - intros -> e fs1 ->. auto.
  - intros ->. auto.
Qed.

End Executor.

Section Loader.

Context {FS : Type} `{FileSystem FS}.
Variable lark_parse : string -> string -> exn + node.

(** *** The loop of [_parse_run] *)

Lemma bind_lift {A B} (r : exn + A) (k : A -> M FS B) (w : World FS) :
  bind (lift r) k w = match r with inr a => k a w | inl e => (inl e, w) end.
Proof. unfold bind, lift. now destruct r. Qed.

Lemma bind_log_info {B} (msg : string) (k : unit -> M FS B) (w : World FS) :
  bind (log_info msg) k w = k tt (after_event (Log INFO msg) w).
Proof. reflexivity. Qed.

Lemma append_conditional_registers (self : App FS) (src dst : string)
    (cond : datetime -> M FS bool) (w : World FS) :
  append_conditional self src dst cond
    (after_event (Log INFO "Registering backup task with time condition") w)
  = registered self src dst cond w.
Proof. reflexivity. Qed.

Ltac lift_step :=
  rewrite bind_lift;
  cbn [node_children node_data node_value node_strip getitem nth_error and_then].

Tactic Notation "case_result" constr(r) "as" ident(x) :=
  let e := fresh "e" in
  destruct r as [e | x] eqn:?; cbn [and_then] in *; try discriminate.

(** On a statement that has an instruction, the body of the loop does
    what the scheduler does with that instruction. *)
Lemma parse_run_inst_schedule (self : App FS) (inst : node)
    (i : BackupInstruction) (w : World FS) :
  instruction_of_tree inst = inr i ->
  parse_run_inst self inst w = schedule self i w.
Proof.
  unfold instruction_of_tree, parse_run_inst, schedule.
  intros Hi.
  case_result (node_children inst) as cs. lift_step.
  case_result (and_then (getitem cs 0) node_strip) as src. lift_step.
  case_result (and_then (getitem cs 1) node_strip) as dst. lift_step.
  destruct (length cs =? 2)%nat.
  - injection Hi as <-. reflexivity.
  - case_result (getitem cs 2) as time_type_data. lift_step.
    rewrite bind_log_info.
    unfold condition_of_tree in Hi.
    case_result (node_data time_type_data) as type_tag. lift_step.
    destruct (type_tag =? "avg_time_expresion")%string.
    + case_result (node_children time_type_data) as tcs.
      case_result (getitem tcs 0) as time_data. lift_step.
      case_result (node_data time_data) as tag. lift_step.
      repeat match goal with
      | |- context [if (?t =? ?lit)%string then _ else _] =>
          destruct (t =? lit)%string
      end;
      try (case_result (int_child_value time_data 0) as n; lift_step);
      try discriminate;
      injection Hi as <-; cbn [condition source destination];
      rewrite bind_log_info; apply append_conditional_registers.
    + destruct (type_tag =? "precise_time_expression")%string; [| discriminate].
      case_result (int_child_value time_type_data 0) as h. lift_step.
      case_result (int_child_value time_type_data 1) as m. lift_step.
      injection Hi as <-; cbn [condition source destination];
      rewrite bind_log_info; apply append_conditional_registers.
Qed.

Lemma for_fold_parse_run_inst (insts : list node) :
  forall (is_ : list BackupInstruction) (self : App FS) (w : World FS),
    instructions_of_trees insts = inr is_ ->
    for_fold insts parse_run_inst self w = load is_ self w.
Proof.
  induction insts as [| inst insts IH]; intros is_ self w His; cbn in His.
  - injection His as <-. reflexivity.
  - case_result (instruction_of_tree inst) as i.
    case_result (instructions_of_trees insts) as is'.
    injection His as <-.
    unfold load; cbn [for_fold]. unfold bind.
    rewrite (parse_run_inst_schedule self inst i w) by assumption.
    destruct (schedule self i w) as [[e' | self'] w']; [reflexivity |].
    now apply IH.
Qed.

(** The first three lines of [_parse_run]: the grammar is read, the text
    is parsed, the statements are taken off the tree. *)
Lemma parse_stage (self : App FS) (grammar : string) (w : World FS) :
  read_text (fs w) "backup_dsl.ebnf" = inr grammar ->
  App_parse_run lark_parse self w
  = bind (lift (and_then (lark_parse grammar (_program self)) node_children))
         (fun insts => for_fold insts parse_run_inst self) w.
Proof.
  intros Hg. unfold App_parse_run, bind at 1, open_read. rewrite Hg.
  rewrite !bind_lift.
  destruct (lark_parse grammar (_program self)) as [e | tree]; cbn [and_then];
    [reflexivity |].
  rewrite bind_lift. reflexivity.
Qed.

(** On a tree the grammar yields, [_parse_run] is the scheduler's load
    of the instruction list. *)
Lemma parse_run_is_load (self : App FS) (grammar : string) (tree : node)
    (insts : list node) (is_ : list BackupInstruction) (w : World FS) :
  read_text (fs w) "backup_dsl.ebnf" = inr grammar ->
  lark_parse grammar (_program self) = inr tree ->
  node_children tree = inr insts ->
  instructions_of_trees insts = inr is_ ->
  App_parse_run lark_parse self w = load is_ self w.
Proof.
  intros Hg Ht Hc His.
  rewrite (parse_stage self grammar w Hg), bind_lift, Ht. cbn [and_then].
  rewrite Hc. now apply for_fold_parse_run_inst.
Qed.

Lemma for_fold_app {A S} (xs ys : list A) (body : S -> A -> M FS S) (self : S)
    (w : World FS) :
  for_fold (xs ++ ys) body self w
  = bind (for_fold xs body self) (fun self' => for_fold ys body self') w.
Proof.
  revert self w. induction xs as [| x xs IH]; intros self w.
  - reflexivity.
  - cbn [app for_fold]. unfold bind.
    destruct (body self x w) as [[e | self'] w1]; [reflexivity | exact (IH _ w1)].
Qed.

(** Every outcome of the body of the loop is one of the five of
    [handled]. *)
Lemma parse_run_inst_handled (self : App FS) (inst : node) (w : World FS) :
  handled self w (parse_run_inst self inst w).
Proof.
  unfold parse_run_inst.
  lift_step. destruct (node_children inst) as [e | cs]; [constructor |].
  lift_step.
  destruct (and_then (getitem cs 0) node_strip) as [e | src]; [constructor |].
  lift_step.
  destruct (and_then (getitem cs 1) node_strip) as [e | dst]; [constructor |].
  destruct (length cs =? 2)%nat; [apply handled_executed |].
  lift_step. destruct (getitem cs 2) as [e | time_type_data]; [constructor |].
  rewrite bind_log_info. lift_step.
  destruct (node_data time_type_data) as [e | type_tag]; [constructor |].
  destruct (type_tag =? "avg_time_expresion")%string.
  - lift_step.
    destruct (and_then (node_children time_type_data)
                       (fun cs0 => getitem cs0 0)) as [e | time_data];
      [constructor |].
    lift_step. destruct (node_data time_data) as [e | tag]; [constructor |].
    repeat match goal with
    | |- context [if (?t =? ?lit)%string then _ else _] =>
        destruct (t =? lit)%string
    end;
    try lift_step;
    try (destruct (int_child_value time_data 0) as [e | n]);
    first [ rewrite append_conditional_registers; apply handled_registered
          | apply handled_dropped
          | apply handled_unreadable_logged ].
  - destruct (type_tag =? "precise_time_expression")%string; [| constructor].
    lift_step.
    destruct (int_child_value time_type_data 0) as [e | h]; [constructor |].
    lift_step.
    destruct (int_child_value time_type_data 1) as [e | m]; [constructor |].
    rewrite append_conditional_registers. apply handled_registered.
Qed.

(** C3, as amended.  [_parse_run] does not stop at the parse.  Once lark
    has parsed the text, the loop takes the statements of the tree one at
    a time, in the order of the program, each from the world the
    statements before it left.  There and then a statement of two paths
    is executed; a statement that makes the task list grow appends one
    task, stamped with the reading of the clock at that moment, and
    touches no file; and when a statement cannot be read its error leaves
    [_parse_run] with what the statements before it did left in place. *)
Theorem parse_run_handles_each_statement (self self1 : App FS)
    (grammar : string) (tree : node) (before after_ : list node) (inst : node)
    (w w1 : World FS) :
  read_text (fs w) "backup_dsl.ebnf" = inr grammar ->
  lark_parse grammar (_program self) = inr tree ->
  node_children tree = inr (before ++ inst :: after_) ->
  for_fold before parse_run_inst self w = (inr self1, w1) ->
  App_parse_run lark_parse self w
  = bind (parse_run_inst self1 inst)
         (fun self2 => for_fold after_ parse_run_inst self2) w1
  /\ (forall rule tp td src dst : string,
        inst = Tree rule [Token tp src; Token td dst] ->
        App_parse_run lark_parse self w
        = bind (backup_file (mkDirectBackupTask (strip src) (strip dst)))
               (fun _ => for_fold after_ parse_run_inst self1)
               (after_event (Log INFO "Running backup task") w1))
  /\ (forall (self2 : App FS) (w2 : World FS),
        parse_run_inst self1 inst w1 = (inr self2, w2) ->
        _conditional_backups self2 = _conditional_backups self1
        \/ exists t : TimeConditionedBackup FS,
             _conditional_backups self2 = _conditional_backups self1 ++ [t]
             /\ _creation_date t = clock w1 (reads w1)
             /\ reads w2 = S (reads w1)
             /\ fs w2 = fs w1)
  /\ (forall (e : exn) (w2 : World FS),
        parse_run_inst self1 inst w1 = (inl e, w2) ->
        App_parse_run lark_parse self w = (inl e, w2)).
Proof.
  intros Hg Ht Hc Hbefore.
  assert (Hrun : App_parse_run lark_parse self w
                 = bind (parse_run_inst self1 inst)
                        (fun self2 => for_fold after_ parse_run_inst self2) w1).
  { rewrite (parse_stage self grammar w Hg), bind_lift, Ht. cbn [and_then].
    rewrite Hc, for_fold_app. now rewrite (bind_inr _ _ _ _ _ Hbefore). }
  split; [exact Hrun | split; [| split]].
  - intros rule tp td src dst ->. rewrite Hrun.
    unfold bind at 1, parse_run_inst.
    do 3 lift_step. cbn [length Nat.eqb].
    rewrite bind_log_info. unfold bind.
    now destruct (backup_file (mkDirectBackupTask (strip src) (strip dst))
                    (after_event (Log INFO "Running backup task") w1))
      as [[e | []] w2].
  - intros self2 w2 Hinst.
    pose proof (parse_run_inst_handled self1 inst w1) as Hcase.
    rewrite Hinst in Hcase.
    inversion Hcase as [e | e | src dst Hexec | | src dst cond Hreg].
    + left. unfold bind, ret in Hexec.
      match type of Hexec with
      | context [DirectBackupTask_run_backup ?t ?w0] =>
          destruct (DirectBackupTask_run_backup t w0) as [[e | []] w3]
      end; [discriminate |].
      now injection Hexec as <- _.
    + now left.
    + right. eexists.
      cbn [_conditional_backups _creation_date after_now after_event reads fs].
      repeat split; reflexivity.
  - intros e w2 Hinst. rewrite Hrun. now apply bind_inl.
Qed.

(** C6.  When lark refuses the text, [App.__init__] raises lark's error
    and leaves the world as it found it: no event, so no backup has run,
    and no [App], so no task is registered.  The script then raises the
    same error before [App.run] is called. *)
Theorem malformed_program_halts (file program grammar : string) (e : exn)
    (ticks : nat) (w : World FS) :
  os_path_isfile (fs w) file = true ->
  read_text (fs w) file = inr program ->
  read_text (fs w) "backup_dsl.ebnf" = inr grammar ->
  lark_parse grammar program = inl e ->
  App_init lark_parse file w = (inl e, w)
  /\ main lark_parse file ticks w = (inl e, w).
Proof.
  intros Hfile Hprog Hg He.
  assert (Hinit : App_init lark_parse file w = (inl e, w)).
  { unfold App_init, bind at 1, ask. rewrite Hfile.
    unfold bind at 1, open_read. rewrite Hprog.
    rewrite (parse_stage _ grammar w Hg), bind_lift; cbn [_program].
    now rewrite He. }
  split; [exact Hinit |].
  unfold main. now rewrite (bind_inl _ _ _ _ _ Hinit).
Qed.

End Loader.

Section Scheduling.

Context {FS : Type} `{FileSystem FS}.
Variable lark_parse : string -> string -> exn + node.

(** *** Statements with a recurrence *)

Lemma every_statement_registers (self : App FS) (rule tp td src dst : string)
    (time_data : node) (c : TimeCondition) (w : World FS) :
  condition_of_tree (Tree "avg_time_expresion" [time_data]) = inr c ->
  parse_run_inst self
    (every_statement rule (Token tp src) (Token td dst) time_data) w
  = registered self (strip src) (strip dst) (closure_of c) w.
Proof.
  intros Hc.
  rewrite (parse_run_inst_schedule self _
             (mkBackupInstruction (strip src) (strip dst) (Some c))).
  - reflexivity.
  - unfold every_statement, instruction_of_tree.
    cbn [node_children and_then getitem nth_error node_strip length Nat.eqb].
    now rewrite Hc.
Qed.

Lemma condition_of_every_nb (tag tn s : string) (N : Z) (c : TimeCondition) :
  int_str s = inr N ->
  (tag = "every_nb_minutes" /\ c = EveryNMinutes N)
  \/ (tag = "every_nb_hours" /\ c = EveryNHours N) ->
  condition_of_tree (Tree "avg_time_expresion" [Tree tag [Token tn s]]) = inr c.
Proof.
  intros Hs [[-> ->] | [-> ->]];
    unfold condition_of_tree, int_child_value;
    cbn [node_data node_children node_value and_then getitem nth_error String.eqb
         Ascii.eqb Bool.eqb];
    now rewrite Hs.
Qed.

(** C9.  The loop of [_parse_run] registers, for a statement with
    [every hour], the closure [every_minutes 60]; with [every minute],
    [every_minutes 1]; with [every N hours], [every_minutes (60 * N)]; and
    with [every N minutes], [every_minutes N].  The task is the same in
    every other respect, so on every creation date and in every world the
    condition of each form answers as that of the minutes form does. *)
Theorem recurrence_forms_are_every_minutes (self : App FS)
    (rule tp td tn src dst s : string) (cs : list node) (N : Z) (w : World FS) :
  int_str s = inr N ->
  let statement := every_statement rule (Token tp src) (Token td dst) in
  let registers cond := registered self (strip src) (strip dst) cond w in
  parse_run_inst self (statement (Tree "every_hour" cs)) w
  = registers (every_minutes 60)
  /\ parse_run_inst self (statement (Tree "every_minute" cs)) w
     = registers (every_minutes 1)
  /\ parse_run_inst self (statement (Tree "every_nb_hours" [Token tn s])) w
     = registers (every_minutes (60 * N))
  /\ parse_run_inst self (statement (Tree "every_nb_minutes" [Token tn s])) w
     = registers (every_minutes N)
  /\ forall (created_at : datetime) (w' : World FS),
       @closure_of FS EveryHour created_at w'
       = closure_of (EveryNMinutes 60) created_at w'
       /\ @closure_of FS EveryMinute created_at w'
          = closure_of (EveryNMinutes 1) created_at w'
       /\ @closure_of FS (EveryNHours N) created_at w'
          = closure_of (EveryNMinutes (60 * N)) created_at w'.
Proof.
  intros Hs statement registers. subst statement registers.
  split; [| split; [| split; [| split]]].
  - now apply (every_statement_registers _ _ _ _ _ _ _ EveryHour).
  - now apply (every_statement_registers _ _ _ _ _ _ _ EveryMinute).
  - rewrite (Z.mul_comm 60 N).
    apply (every_statement_registers _ _ _ _ _ _ _ (EveryNHours N)).
    apply (condition_of_every_nb _ _ _ N); auto.
  - apply (every_statement_registers _ _ _ _ _ _ _ (EveryNMinutes N)).
    apply (condition_of_every_nb _ _ _ N); auto.
  - intros created_at w'. cbn [closure_of].
    now rewrite (Z.mul_comm 60 N).
Qed.

(** C10.  The remainder of [every_minutes] is not guarded: with zero
    minutes the closure raises [ZeroDivisionError] on every creation date
    and at every reading of the clock.  The loop of [_parse_run] builds
    that closure for [every 0 minutes] and for [every 0 hours], and the
    task so registered raises whenever it is run.  With a positive number
    of minutes the closure returns a boolean. *)
Theorem every_zero_minutes_raises (self : App FS)
    (rule tp td tn src dst : string) (created_at : datetime)
    (task : DirectBackupTask) (p : positive) (w : World FS) :
  @every_minutes FS 0 created_at w = (inl ZeroDivisionError, after_now w)
  /\ parse_run_inst self
       (every_statement rule (Token tp src) (Token td dst)
                        (Tree "every_nb_minutes" [Token tn "0"])) w
     = registered self (strip src) (strip dst) (every_minutes 0) w
  /\ parse_run_inst self
       (every_statement rule (Token tp src) (Token td dst)
                        (Tree "every_nb_hours" [Token tn "0"])) w
     = registered self (strip src) (strip dst) (every_minutes 0) w
  /\ backup_file {| _creation_date := created_at;
                    _backup_task := task;
                    _time_condition := every_minutes 0 |} w
     = (inl ZeroDivisionError, after_now w)
  /\ every_minutes (Z.pos p) created_at w
     = (inr (elapsed_minutes (clock w (reads w)) created_at mod Z.pos p =? 0),
        after_now w).
Proof.
  split; [| split; [| split; [| split]]].
  - now rewrite every_minutes_eval.
  - apply (every_statement_registers _ _ _ _ _ _ _ (EveryNMinutes 0)).
    reflexivity.
  - apply (every_statement_registers _ _ _ _ _ _ _ (EveryNHours 0)).
    reflexivity.
  - unfold backup_file; cbn [_run_backup TimeConditionedBackup_BackupTask].
    unfold TimeConditionedBackup_run_backup;
      cbn [_time_condition _creation_date].
    apply bind_inl. now rewrite every_minutes_eval.
  - now rewrite every_minutes_eval.
Qed.

(** *** Programs without a time expression *)

Lemma load_unconditional (is_ : list BackupInstruction) :
  Forall (fun i => condition i = None) is_ ->
  forall (self app : App FS) (w w' : World FS),
    load is_ self w = (inr app, w') ->
    app = self /\ executed_in_order is_ w w'.
Proof.
  induction 1 as [| i is_ Hi _ IH]; intros self app w w' Hload.
  - injection Hload as <- <-. split; [reflexivity | constructor].
  - unfold load in Hload; cbn [for_fold] in Hload.
    unfold bind at 1, schedule in Hload. rewrite Hi in Hload.
    rewrite bind_log_info in Hload. unfold bind at 1 in Hload.
    destruct (backup_file (mkDirectBackupTask (source i) (destination i))
                (after_event (Log INFO "Running backup task") w))
      as [[e | []] w1] eqn:Hrun; [discriminate |].
    cbn [ret] in Hload.
    destruct (IH self app w1 w' Hload) as [-> Hrest].
    split; [reflexivity | now apply (executed_cons i is_ w w1 w')].
Qed.

(** C4, as amended.  Take a program whose statements all lack a time
    expression and whose load does not raise.  Then the list of
    conditional tasks is empty after the load, the instructions have been
    executed once each, in the order of the program, and [App.run] returns
    at once, the world untouched, without a pass of the poll loop. *)
Theorem unconditional_program_runs_once (file program grammar : string)
    (tree : node) (insts : list node) (is_ : list BackupInstruction)
    (app : App FS) (w w' : World FS) :
  os_path_isfile (fs w) file = true ->
  read_text (fs w) file = inr program ->
  read_text (fs w) "backup_dsl.ebnf" = inr grammar ->
  lark_parse grammar program = inr tree ->
  node_children tree = inr insts ->
  instructions_of_trees insts = inr is_ ->
  Forall (fun i => condition i = None) is_ ->
  App_init lark_parse file w = (inr app, w') ->
  _conditional_backups app = []
  /\ executed_in_order is_ w w'
  /\ forall ticks : nat, App_run ticks app w' = (inr Returned, w').
Proof.
  intros Hfile Hprog Hg Ht Hc His Hnone Hinit.
  unfold App_init, bind at 1, ask in Hinit. rewrite Hfile in Hinit.
  unfold bind at 1, open_read in Hinit. rewrite Hprog in Hinit.
  rewrite (parse_run_is_load lark_parse
             {| _program := program; _conditional_backups := [] |}
             grammar tree insts is_ w Hg Ht Hc His) in Hinit.
  destruct (load_unconditional is_ Hnone _ _ _ _ Hinit) as [-> Hrun].
  split; [reflexivity | split; [exact Hrun | reflexivity]].
Qed.

(** *** The poll loop *)

Lemma poll_add (a b : nat) (self : App FS) (w : World FS) :
  poll (a + b) self w
  = match poll a self w with
    | (inr _, w') => poll b self w'
    | (inl e, w') => (inl e, w')
    end.
Proof.
  revert w. induction a as [| a IH]; intros w; [reflexivity |].
  cbn [Nat.add poll]. unfold bind.
  destruct (for_each (_conditional_backups self) backup_file w)
    as [[e | []] w1]; [reflexivity |].
  cbn. apply IH.
Qed.

(** C2, as amended.  A runtime error raised by a task during a pass of
    the poll loop is caught nowhere: it leaves [App.run].  Once [ticks]
    passes have completed and, in the next one, the tasks before [task]
    have run, an error [e] of [task] ends the run with [e] in the world of
    the raise, however long the loop is observed: the tasks after [task]
    are not run in that pass, the loop does not go to sleep and no later
    pass takes place. *)
Theorem task_error_ends_run (self : App FS)
    (before after_ : list (TimeConditionedBackup FS))
    (task : TimeConditionedBackup FS) (e : exn) (ticks more : nat)
    (w w0 w1 w2 : World FS) :
  _conditional_backups self = before ++ task :: after_ ->
  poll ticks self w = (inr Polling, w0) ->
  for_each before backup_file w0 = (inr tt, w1) ->
  backup_file task w1 = (inl e, w2) ->
  App_run (ticks + S more) self w = (inl e, w2).
Proof.
  intros Htasks Hpoll Hbefore Htask.
  assert (Hlen : (0 <? length (_conditional_backups self))%nat = true).
  { rewrite Htasks, length_app. cbn [length]. apply Nat.ltb_lt. lia. }
  unfold App_run. rewrite Hlen, poll_add, Hpoll. cbn [poll].
  apply bind_inl. rewrite Htasks, for_each_app.
  rewrite (bind_inr _ _ _ _ _ Hbefore). cbn [for_each].
  now apply bind_inl.
Qed.

End Scheduling.

(** ** Further properties of the program *)

Lemma sleeps_snoc (tr : list event) (e : event) :
  sleeps (tr ++ [e]) = (sleeps tr + (if is_sleep e then 1 else 0))%nat.
Proof.
  unfold sleeps. rewrite filter_app, length_app. cbn [filter].
  now destruct (is_sleep e).
Qed.

Section ExecutorCoverage.

Context {FS : Type} `{FileSystem FS}.

(** *** The executor on a file, and on a directory backed up onto itself *)


(** The executor reads no clock and does not sleep, whatever it does to
    the filesystem and however it ends. *)
Lemma run_backup_frame (task : DirectBackupTask) (w : World FS) :
  clock (snd (backup_file task w)) = clock w
  /\ reads (snd (backup_file task w)) = reads w
  /\ sleeps (events (snd (backup_file task w))) = sleeps (events w).
Proof.
  destruct task as [src dst].
  unfold backup_file; cbn [_run_backup DirectBackupTask_BackupTask].
  unfold DirectBackupTask_run_backup; cbn [_source _destination].
  cbv [bind ask call log_info log_debug log_error emit ret];
    cbn -[format sleeps].
  destruct (os_path_exists (fs w) src); cbn -[format sleeps];
    [| now rewrite sleeps_snoc, Nat.add_0_r].
  destruct (os_path_isdir (fs w) src); cbn -[format sleeps].
  - destruct (os_path_exists (fs w) dst); cbn -[format sleeps].
    + destruct (shutil_rmtree dst (fs w)) as [[e | []] fs1];
        cbn -[format sleeps];
        [now rewrite !sleeps_snoc, !Nat.add_0_r |].
      destruct (shutil_copytree src dst fs1) as [[e | []] fs2];
        cbn -[format sleeps];
        now rewrite !sleeps_snoc, !Nat.add_0_r.
    + destruct (shutil_copytree src dst (fs w)) as [[e | []] fs2];
        cbn -[format sleeps];
        now rewrite !sleeps_snoc, !Nat.add_0_r.
  - destruct (shutil_copy2 src dst (fs w)) as [[e | []] fs1];
      cbn -[format sleeps];
      now rewrite !sleeps_snoc, !Nat.add_0_r.
Qed.

(** X2.  A directory backed up onto itself is lost.  On a filesystem
    where a removed tree no longer exists and where copying a tree that
    does not exist raises and changes nothing, the executor given the
    same existing directory as source and destination removes it, raises
    the error of the copy, and leaves a filesystem without it. *)
Theorem directory_onto_itself_is_removed (src : string) (fs1 : FS) (w : World FS) :
  (forall (p : string) (d d' : FS),
      shutil_rmtree p d = (inr tt, d') -> os_path_exists d' p = false) ->
  (forall (s t : string) (d : FS),
      os_path_exists d s = false ->
      exists e : exn, shutil_copytree s t d = (inl e, d)) ->
  os_path_exists (fs w) src = true ->
  os_path_isdir (fs w) src = true ->
  shutil_rmtree src (fs w) = (inr tt, fs1) ->
  (exists e : exn, fst (backup_file (mkDirectBackupTask src src) w) = inl e)
  /\ fs (snd (backup_file (mkDirectBackupTask src src) w)) = fs1
  /\ os_path_exists (fs (snd (backup_file (mkDirectBackupTask src src) w))) src
     = false
  /\ fs_calls (events (snd (backup_file (mkDirectBackupTask src src) w)))
     = fs_calls (events w) ++ [Rmtree src; Copytree src src].
Proof.
  intros Hremoved Hmissing Hsrc Hdir Hrm.
  destruct (run_backup_directory src src w Hsrc Hdir)
    as (w' & Hrun & Hfs & Hcalls).
  rewrite Hsrc, Hrm in Hrun, Hfs, Hcalls.
  pose proof (Hremoved src (fs w) fs1 Hrm) as Hgone.
  destruct (Hmissing src src fs1 Hgone) as [e He].
  rewrite He in Hrun, Hfs. cbn [fst snd] in Hrun, Hfs.
  rewrite Hrun; cbn [fst snd]. rewrite Hfs.
  split; [now exists e | split; [reflexivity | split; assumption]].
Qed.

End ExecutorCoverage.

Section LoaderCoverage.

Context {FS : Type} `{FileSystem FS}.
Variable lark_parse : string -> string -> exn + node.

Ltac lift_now :=
  rewrite bind_lift;
  cbn [node_children node_data node_value node_strip getitem nth_error and_then].

(** *** Statements with a time of day *)

(** X3.  For a statement with [at H : M] the loop of [_parse_run]
    registers the closure [specific_time] of the two integers, whatever
    they are: no range is checked.  The registration logs one record,
    stamps the task with the reading of the clock and calls nothing of the
    filesystem. *)
Theorem fixed_time_statement_registers (self : App FS)
    (rule tp td th tm src dst sh sm : string) (more : list node) (hh mm : Z)
    (w : World FS) :
  int_str sh = inr hh ->
  int_str sm = inr mm ->
  parse_run_inst self
    (Tree rule
       [Token tp src; Token td dst;
        Tree "precise_time_expression" (Token th sh :: Token tm sm :: more)]) w
  = registered self (strip src) (strip dst) (specific_time hh mm) w.
Proof.
  intros Hh Hm.
  rewrite (parse_run_inst_schedule self _
             (mkBackupInstruction (strip src) (strip dst)
                                  (Some (AtFixedTime hh mm)))).
  - reflexivity.
  - unfold instruction_of_tree, condition_of_tree, int_child_value.
    cbn [node_children node_data node_value node_strip and_then getitem
         nth_error length Nat.eqb String.eqb Ascii.eqb Bool.eqb].
    rewrite Hh; cbn [and_then]. now rewrite Hm.
Qed.

(** X4.  A task registered with an hour outside 0..23 or a minute
    outside 0..59 never runs: at every reading of the clock, whose hour
    and minute are in range, its execution reads the clock and returns,
    with no call of the filesystem and no record in the log. *)
Theorem out_of_range_time_never_runs (h m : Z) (created_at : datetime)
    (task : DirectBackupTask) (w : World FS) :
  0 <= hour (clock w (reads w)) < 24 ->
  0 <= minute (clock w (reads w)) < 60 ->
  ~ (0 <= h < 24 /\ 0 <= m < 60) ->
  backup_file {| _creation_date := created_at;
                 _backup_task := task;
                 _time_condition := specific_time h m |} w
  = (inr tt, after_now w).
Proof.
  intros Hhour Hminute Hrange.
  unfold backup_file; cbn [_run_backup TimeConditionedBackup_BackupTask].
  unfold TimeConditionedBackup_run_backup;
    cbn [_time_condition _creation_date _backup_task].
  assert (Hcond : specific_time h m created_at w = (inr false, after_now w)).
  { change (specific_time h m created_at w)
      with (@inr exn bool ((hour (clock w (reads w)) =? h)
                           && (minute (clock w (reads w)) =? m))%bool,
            after_now w).
    destruct (Z.eqb_spec (hour (clock w (reads w))) h) as [<- | _];
      [| reflexivity].
    destruct (Z.eqb_spec (minute (clock w (reads w))) m) as [<- | _];
      [| reflexivity].
    exfalso. apply Hrange. split; assumption. }
  now rewrite (bind_inr _ _ _ _ _ Hcond).
Qed.

(** *** Subtrees the loop does not know *)

(** X5.  The [if]/[elif] chains of [_parse_run] have no [else].  A
    statement whose third child carries a rule name other than the two
    the loop tests, or a recurrence other than the four it tests, is
    logged as registered and dropped: no task is appended, nothing is
    executed and nothing is raised. *)
Theorem unknown_time_expression_is_dropped (self : App FS)
    (rule tp td src dst tag tag' : string) (cs cs' more more' : list node)
    (w : World FS) :
  is_time_type tag = false ->
  is_recurrence tag' = false ->
  parse_run_inst self
    (Tree rule (Token tp src :: Token td dst :: Tree tag cs :: more)) w
  = (inr self,
     after_event (Log INFO "Registering backup task with time condition") w)
  /\ parse_run_inst self
       (Tree rule (Token tp src :: Token td dst
                   :: Tree "avg_time_expresion" (Tree tag' cs' :: more')
                   :: more)) w
     = (inr self,
        after_event (Log INFO "Registering backup task with time condition") w).
Proof.
  unfold is_time_type, is_recurrence.
  rewrite !orb_false_iff.
  intros [Havg Hprecise] [[[Hmin Hhours] Hhour] Hminute].
  split; unfold parse_run_inst;
    do 3 lift_now; cbn [length Nat.eqb];
    lift_now; rewrite bind_log_info; lift_now.
  - now rewrite Havg, Hprecise.
  - cbn [String.eqb Ascii.eqb Bool.eqb].
    do 2 lift_now.
    now rewrite Hmin, Hhours, Hhour, Hminute.
Qed.

(** *** Errors before the loop *)

(** X6.  Whatever stops [App.__init__] before the loop of [_parse_run]
    (the path is not a file, the program or the grammar cannot be read,
    lark refuses the text), the error leaves [App.__init__] and then the
    script with the world as it was: nothing is logged, nothing is
    executed, no clock is read. *)
Theorem startup_error_changes_nothing (file : string) (e : exn) (ticks : nat)
    (w : World FS) :
  startup_error lark_parse file (fs w) e ->
  App_init lark_parse file w = (inl e, w)
  /\ main lark_parse file ticks w = (inl e, w).
Proof.
  intros Herr.
  assert (Hinit : App_init lark_parse file w = (inl e, w)).
  { unfold App_init, bind at 1, ask.
    destruct Herr as [[Hfile ->] | [Hfile Hrest]]; rewrite Hfile;
      [reflexivity |].
    unfold bind at 1, open_read.
    destruct Hrest as [Hread | (program & Hread & Hrest)]; rewrite Hread;
      [reflexivity |].
    destruct Hrest as [Hg | (grammar & Hg & Hparse)].
    - unfold App_parse_run, bind at 1, open_read. now rewrite Hg.
    - rewrite (parse_stage _ _ grammar w Hg), bind_lift; cbn [_program].
      now rewrite Hparse. }
  split; [exact Hinit |].
  unfold main. now rewrite (bind_inl _ _ _ _ _ Hinit).
Qed.

End LoaderCoverage.

Section SchedulerCoverage.

Context {FS : Type} `{FileSystem FS}.
Variable lark_parse : string -> string -> exn + node.

(** *** What a load registers *)

Lemma load_cons (i : BackupInstruction) (is_ : list BackupInstruction)
    (self : App FS) (w : World FS) :
  load (i :: is_) self w
  = bind (schedule self i) (fun self' => load is_ self') w.
Proof. reflexivity. Qed.

Lemma schedule_conditional (self : App FS) (i : BackupInstruction)
    (c : TimeCondition) (w : World FS) :
  condition i = Some c ->
  schedule self i w
  = registered self (source i) (destination i) (closure_of c) w.
Proof. unfold schedule. now intros ->. Qed.

(** The tasks of a load that ends without an error, with the clock it
    leaves. *)
Lemma load_tasks (is_ : list BackupInstruction) :
  forall (self app : App FS) (w w' : World FS),
    load is_ self w = (inr app, w') ->
    _program app = _program self
    /\ _conditional_backups app
       = _conditional_backups self ++ tasks_from (clock w) (reads w) is_
    /\ clock w' = clock w
    /\ reads w'
       = (reads w + length (@tasks_from FS (clock w) (reads w) is_))%nat.
Proof.
  induction is_ as [| i is_ IH]; intros self app w w' Hload.
  - injection Hload as <- <-. cbn [tasks_from length].
    now rewrite app_nil_r, Nat.add_0_r.
  - rewrite load_cons in Hload. cbn [tasks_from].
    destruct (condition i) as [c |] eqn:Hi.
    + unfold bind in Hload.
      rewrite (schedule_conditional self i c w Hi) in Hload.
      unfold registered in Hload.
      destruct (IH _ _ _ _ Hload) as (Hprog & Htasks & Hclock & Hreads).
      cbn [_program _conditional_backups after_now after_event clock reads]
        in Hprog, Htasks, Hclock, Hreads.
      rewrite Hprog, Htasks, Hclock, Hreads, <- app_assoc. cbn [List.app length].
      repeat split; lia.
    + unfold bind at 1, schedule in Hload. rewrite Hi in Hload.
      rewrite bind_log_info in Hload. unfold bind at 1 in Hload.
      pose proof (run_backup_frame
                    (mkDirectBackupTask (source i) (destination i))
                    (after_event (Log INFO "Running backup task") w))
        as (Hclock1 & Hreads1 & _).
      destruct (backup_file (mkDirectBackupTask (source i) (destination i))
                  (after_event (Log INFO "Running backup task") w))
        as [[e | []] w1]; [discriminate |].
      cbn [snd after_event clock reads ret] in Hclock1, Hreads1, Hload.
      destruct (IH _ _ _ _ Hload) as (Hprog & Htasks & Hclock & Hreads).
      rewrite Hclock1, Hreads1 in Htasks, Hreads.
      rewrite Hclock1 in Hclock.
      repeat split; assumption.
Qed.

(** X7.  After a load that ends without an error, the conditional list
    holds one task per statement with a time expression, in the order of
    the program, whatever statements without one stand between them; the
    task of the [k]-th such statement carries the [k]-th reading of the
    clock made by the load as its creation date, and the load reads the
    clock that many times. *)
Theorem load_registers_in_order (file program grammar : string) (tree : node)
    (insts : list node) (is_ : list BackupInstruction) (app : App FS)
    (w w' : World FS) :
  os_path_isfile (fs w) file = true ->
  read_text (fs w) file = inr program ->
  read_text (fs w) "backup_dsl.ebnf" = inr grammar ->
  lark_parse grammar program = inr tree ->
  node_children tree = inr insts ->
  instructions_of_trees insts = inr is_ ->
  App_init lark_parse file w = (inr app, w') ->
  _program app = program
  /\ _conditional_backups app = tasks_from (clock w) (reads w) is_
  /\ clock w' = clock w
  /\ reads w'
     = (reads w + length (@tasks_from FS (clock w) (reads w) is_))%nat.
Proof.
  intros Hfile Hprog Hg Ht Hc His Hinit.
  unfold App_init, bind at 1, ask in Hinit. rewrite Hfile in Hinit.
  unfold bind at 1, open_read in Hinit. rewrite Hprog in Hinit.
  rewrite (parse_run_is_load lark_parse
             {| _program := program; _conditional_backups := [] |}
             grammar tree insts is_ w Hg Ht Hc His) in Hinit.
  exact (load_tasks is_ _ _ _ _ Hinit).
Qed.

(** A load of statements that all have a time expression. *)
Lemma load_conditional (is_ : list BackupInstruction) :
  Forall (fun i => condition i <> None) is_ ->
  forall (self : App FS) (w : World FS),
    load is_ self w
    = (inr {| _program := _program self;
              _conditional_backups :=
                _conditional_backups self
                ++ tasks_from (clock w) (reads w) is_ |},
       mkWorld (fs w) (clock w) (reads w + length is_)
         (events w
          ++ repeat (Log INFO "Registering backup task with time condition")
                    (length is_))).
Proof.
  induction 1 as [| i is_ Hi _ IH]; intros self w.
  - cbn [tasks_from length repeat]. rewrite !app_nil_r, Nat.add_0_r.
    now destruct self, w.
  - rewrite load_cons. cbn [tasks_from length repeat].
    destruct (condition i) as [c |] eqn:Hc; [| contradiction].
    unfold bind. rewrite (schedule_conditional self i c w Hc).
    unfold registered. rewrite IH.
    cbn [_program _conditional_backups after_now after_event fs clock reads
         events].
    rewrite <- !app_assoc. cbn [List.app].
    now rewrite Nat.add_succ_r.
Qed.

(** X8.  The load of a program whose statements all have a time
    expression cannot fail and touches nothing: it ends without an error
    with one task per statement, the filesystem as it was, one record of
    registration per statement in the log and one reading of the clock per
    statement. *)
Theorem conditional_program_only_registers (file program grammar : string)
    (tree : node) (insts : list node) (is_ : list BackupInstruction)
    (w : World FS) :
  os_path_isfile (fs w) file = true ->
  read_text (fs w) file = inr program ->
  read_text (fs w) "backup_dsl.ebnf" = inr grammar ->
  lark_parse grammar program = inr tree ->
  node_children tree = inr insts ->
  instructions_of_trees insts = inr is_ ->
  Forall (fun i => condition i <> None) is_ ->
  App_init lark_parse file w
  = (inr {| _program := program;
            _conditional_backups := tasks_from (clock w) (reads w) is_ |},
     mkWorld (fs w) (clock w) (reads w + length is_)
       (events w
        ++ repeat (Log INFO "Registering backup task with time condition")
                  (length is_)))
  /\ length (@tasks_from FS (clock w) (reads w) is_) = length is_.
Proof.
  intros Hfile Hprog Hg Ht Hc His Hall. split.
  - unfold App_init, bind at 1, ask. rewrite Hfile.
    unfold bind at 1, open_read. rewrite Hprog.
    rewrite (parse_run_is_load lark_parse
               {| _program := program; _conditional_backups := [] |}
               grammar tree insts is_ w Hg Ht Hc His).
    now rewrite (load_conditional is_ Hall).
  - clear - Hall. generalize (reads w) as k.
    induction Hall as [| i is_ Hi _ IH]; intros k; [reflexivity |].
    cbn [tasks_from]. destruct (condition i); [| contradiction].
    cbn [length]. now rewrite IH.
Qed.

(** *** A pass of the poll loop *)

(** Every task a load registers is built by [_parse_run]. *)
Lemma tasks_from_built (clock_ : nat -> datetime) (is_ : list BackupInstruction) :
  forall k : nat, Forall (@built_by_parse_run FS) (tasks_from clock_ k is_).
Proof.
  induction is_ as [| i is_ IH]; intros k; cbn [tasks_from]; [constructor |].
  destruct (condition i) as [c |]; [| apply IH].
  constructor; [| apply IH].
  exists c. intros d w. reflexivity.
Qed.

Lemma closure_of_frame (c : TimeCondition) (d : datetime) (w : World FS) :
  exists r : exn + bool, closure_of c d w = (r, after_now w).
Proof.
  destruct c as [n | | | n | h m]; cbn [closure_of];
    try (rewrite every_minutes_eval;
         match goal with |- context [if ?b then _ else _] => destruct b end);
    eexists; reflexivity.
Qed.

Lemma conditional_task_frame (t : TimeConditionedBackup FS) (w : World FS) :
  built_by_parse_run t ->
  clock (snd (backup_file t w)) = clock w
  /\ reads (snd (backup_file t w)) = S (reads w)
  /\ sleeps (events (snd (backup_file t w))) = sleeps (events w).
Proof.
  intros [c Hc].
  unfold backup_file at 1 2 3;
    cbn [_run_backup TimeConditionedBackup_BackupTask].
  unfold TimeConditionedBackup_run_backup, bind. rewrite Hc.
  destruct (closure_of_frame c (_creation_date t) w) as [r ->].
  destruct r as [e | [|]]; cbn [snd after_now clock reads events];
    try (repeat split; reflexivity).
  exact (run_backup_frame (_backup_task t) (after_now w)).
Qed.

Lemma pass_frame (ts : list (TimeConditionedBackup FS)) :
  Forall built_by_parse_run ts ->
  forall w w' : World FS,
    for_each ts backup_file w = (inr tt, w') ->
    clock w' = clock w
    /\ reads w' = (reads w + length ts)%nat
    /\ sleeps (events w') = sleeps (events w).
Proof.
  induction 1 as [| t ts Ht _ IH]; intros w w' Hpass.
  - injection Hpass as <-. cbn [length]. now rewrite Nat.add_0_r.
  - cbn [for_each] in Hpass. unfold bind in Hpass.
    pose proof (conditional_task_frame t w Ht) as (Hclock & Hreads & Hsleeps).
    destruct (backup_file t w) as [[e | []] w1]; [discriminate |].
    cbn [snd] in Hclock, Hreads, Hsleeps.
    destruct (IH _ _ Hpass) as (Hclock' & Hreads' & Hsleeps').
    rewrite Hclock', Hreads', Hsleeps', Hclock, Hreads, Hsleeps.
    cbn [length]. repeat split; lia.
Qed.

(** X9.  The poll loop over tasks registered by [_parse_run]: when
    [ticks] passes have completed without an error, the loop has read the
    clock once per task and per pass and has slept once per pass; the run
    has not returned. *)
Theorem poll_passes_read_and_sleep (self : App FS) (ticks : nat)
    (s : run_state) (w w' : World FS) :
  Forall built_by_parse_run (_conditional_backups self) ->
  poll ticks self w = (inr s, w') ->
  s = Polling
  /\ clock w' = clock w
  /\ reads w' = (reads w + ticks * length (_conditional_backups self))%nat
  /\ sleeps (events w') = (sleeps (events w) + ticks)%nat.
Proof.
  intros Hbuilt. revert w.
  induction ticks as [| ticks IH]; intros w Hpoll.
  - injection Hpoll as <- <-. cbn [Nat.mul]. now rewrite !Nat.add_0_r.
  - cbn [poll] in Hpoll. unfold bind at 1 in Hpoll.
    destruct (for_each (_conditional_backups self) backup_file w)
      as [[e | []] w1] eqn:Hpass; [discriminate |].
    destruct (pass_frame _ Hbuilt _ _ Hpass) as (Hclock & Hreads & Hsleeps).
    rewrite bind_log_info in Hpoll.
    change (bind (time_sleep 60) (fun _ => poll ticks self)
                 (after_event (Log INFO "Sleeping for a minute") w1))
      with (poll ticks self
              (after_event (Sleep 60)
                 (after_event (Log INFO "Sleeping for a minute") w1)))
      in Hpoll.
    destruct (IH _ Hpoll) as (-> & Hclock' & Hreads' & Hsleeps').
    cbn [after_event clock reads events] in Hclock', Hreads', Hsleeps'.
    rewrite !sleeps_snoc in Hsleeps'. cbn [is_sleep] in Hsleeps'.
    rewrite Hclock', Hreads', Hsleeps', Hclock, Hreads, Hsleeps.
    cbn [Nat.mul]. repeat split; lia.
Qed.

(** *** The first minute of a task *)

(** X10.  A recurrence is due at once.  [int] rounds toward zero, so the
    elapsed minutes are zero exactly when the clock reads less than a
    minute after, or before, the creation date; the closure of any
    non-zero number of minutes then answers true, and the task runs its
    backup. *)
Theorem task_is_due_within_first_minute (n : Z) (created_at : datetime)
    (task : DirectBackupTask) (w : World FS) :
  n <> 0 ->
  (elapsed_minutes (clock w (reads w)) created_at = 0 <->
   - 60000000 < to_us (clock w (reads w)) - to_us created_at < 60000000)
  /\ (- 60000000 < to_us (clock w (reads w)) - to_us created_at < 60000000 ->
      every_minutes n created_at w = (inr true, after_now w)
      /\ backup_file {| _creation_date := created_at;
                        _backup_task := task;
                        _time_condition := every_minutes n |} w
         = backup_file task (after_now w)).
Proof.
  intros Hn.
  assert (Hzero : elapsed_minutes (clock w (reads w)) created_at = 0 <->
                  - 60000000 < to_us (clock w (reads w)) - to_us created_at
                  < 60000000).
  { rewrite elapsed_minutes_us, Z.quot_small_iff by lia. lia. }
  split; [exact Hzero |].
  intros Hwindow.
  assert (Hcond : every_minutes n created_at w = (inr true, after_now w)).
  { rewrite every_minutes_eval.
    replace (n =? 0) with false by (symmetry; now apply Z.eqb_neq).
    rewrite (proj2 Hzero Hwindow). now rewrite Z.mod_0_l. }
  split; [exact Hcond |].
  unfold backup_file at 1; cbn [_run_backup TimeConditionedBackup_BackupTask].
  unfold TimeConditionedBackup_run_backup;
    cbn [_time_condition _creation_date _backup_task].
  now rewrite (bind_inr _ _ _ _ _ Hcond).
Qed.

End SchedulerCoverage.

(** *** logger.py *)

Lemma calls_configured (opens : list (exn + unit)) (s : Logger.state)
    (l : Logger.logger_ref) :
  Logger._logger s = Some l -> Logger.calls opens s = s.
Proof.
  intros Hset. induction opens as [| opened opens IH]; [reflexivity |].
  cbn [Logger.calls]. unfold Logger.logger. rewrite Hset. exact IH.
Qed.

(** X11.  [logger()] configures the root logger at most once, and sets
    its guard before it builds the handlers.  From a module whose
    [_logger] is still [None]: when the first call opens the log file it
    returns the root logger with the handlers it had, then the file
    handler and the stream handler, each once; when the constructor of
    [RotatingFileHandler] raises in the first call, the call raises with
    no handler added.  Either way the level is DEBUG and [_logger] is set
    from then on, so every later call, whatever the log file has become,
    returns the root logger as the first call left it: it adds no handler
    and does not open the file again. *)
Theorem logger_configures_once (first again : exn + unit)
    (rest : list (exn + unit)) (s : Logger.state) :
  Logger._logger s = None ->
  fst (Logger.logger first s)
  = match first with inr _ => inr Logger.RootLogger | inl e => inl e end
  /\ Logger.root_handlers (Logger.calls (first :: rest) s)
     = Logger.root_handlers s
       ++ match first with
          | inr _ => [Logger.file_handler; Logger.stream_handler]
          | inl _ => []
          end
  /\ Logger.root_level (Logger.calls (first :: rest) s) = Logger.levelno DEBUG
  /\ Logger._logger (Logger.calls (first :: rest) s) = Some Logger.RootLogger
  /\ Logger.logger again (Logger.calls (first :: rest) s)
     = (inr Logger.RootLogger, Logger.calls (first :: rest) s).
Proof.
  intros Hnone.
  assert (Hset : Logger._logger (snd (Logger.logger first s))
                 = Some Logger.RootLogger).
  { unfold Logger.logger. rewrite Hnone. now destruct first. }
  cbn [Logger.calls].
  rewrite (calls_configured rest _ _ Hset).
  split; [| split; [| split; [| split]]].
  - unfold Logger.logger. rewrite Hnone. now destruct first.
  - unfold Logger.logger. rewrite Hnone.
    destruct first; cbn [snd Logger.root_handlers];
      [now rewrite app_nil_r | reflexivity].
  - unfold Logger.logger. rewrite Hnone. now destruct first.
  - exact Hset.
  - unfold Logger.logger at 1. now rewrite Hset.
Qed.

(** X12.  Once a call of [logger()] that opened the log file has
    configured the root logger, a record of level DEBUG goes to the file
    handler and not to the stream handler, and a record of level INFO or
    ERROR goes to both; the handlers the root logger had before receive a
    record when it reaches their own level. *)
Theorem debug_records_go_to_the_file_only (s : Logger.state) (lvl : level) :
  Logger._logger s = None ->
  Logger.handled_by (snd (Logger.logger (inr tt) s)) lvl
  = filter (fun h => Logger.levelno (Logger.handler_level h)
                     <=? Logger.levelno lvl)
           (Logger.root_handlers s)
    ++ match lvl with
       | DEBUG => [Logger.file_handler]
       | INFO | ERROR => [Logger.file_handler; Logger.stream_handler]
       end.
Proof.
  intros Hnone. unfold Logger.logger, Logger.handled_by. rewrite Hnone.
  cbn [snd Logger.root_level Logger.root_handlers].
  rewrite filter_app.
  destruct lvl; reflexivity.
Qed.

(** ** The program on the sample worlds *)

(** Created at 12:00:00 and asked at 12:07:00, [every_minutes 7] answers
    true. *)
Lemma every_minutes_matches_at_seven :
  0 < 7
  /\ @every_minutes disk 7 (minute_clock 0)
       (mkWorld (sample_disk "") minute_clock 7 [])
     = (inr true, mkWorld (sample_disk "") minute_clock 8 []).
Proof.
  split; [reflexivity |].
  destruct (every_minutes_matches 7 (minute_clock 0)
              (mkWorld (sample_disk "") minute_clock 7 []) eq_refl)
    as (b & Hrun & Hiff & _).
  rewrite Hrun. f_equal. f_equal. apply Hiff. reflexivity.
Defined.

(** C1 as stated does not hold when the clock reads a time before the
    creation date.  A task created at 12:00:30 and asked at 12:00:00 of
    the same day has -0.5 elapsed minutes: [int] makes it 0, a multiple of
    2, and [every_minutes 2] answers true; the floor makes it -1, which is
    not a multiple of 2. *)
Lemma every_minutes_before_creation :
  @every_minutes disk 2 noon_30s (sample_world "")
  = (inr true, after_now (sample_world ""))
  /\ clock (sample_world "") (reads (sample_world ""))
     = mkDatetime 737000 12 0 0 0
  /\ floor_minutes noon_30s (mkDatetime 737000 12 0 0 0) mod 2 = 1
  /\ matches (EveryNMinutes 2) noon_30s (mkDatetime 737000 12 0 0 0) = false.
Proof. split; [| split; [| split]]; vm_compute; reflexivity. Qed.

(** The missing source [nothing.txt] is reported and the filesystem is
    left as it was. *)
Lemma source_missing_on_sample :
  os_path_exists (fs (sample_world "")) "nothing.txt" = false
  /\ backup_file (mkDirectBackupTask "nothing.txt" "b.txt") (sample_world "")
     = (inr tt,
        mkWorld (sample_disk "") minute_clock 0
          [Log ERROR
             "Cannot backup nothing.txt to b.txt because source does not exist"]).
Proof.
  split; [reflexivity |].
  exact (proj1 (source_missing_is_reported "nothing.txt" "b.txt"
                  (sample_world "") eq_refl)).
Defined.

(** The directory [d] replaces the directory [e]: the member [old] of
    [e] is gone, [e] holds what [d] holds. *)
Lemma directory_is_replaced_on_sample :
  os_path_exists (fs (sample_world "")) "d" = true
  /\ os_path_isdir (fs (sample_world "")) "d" = true
  /\ lookup (fs (sample_world "")) "e" = Some (Dir [("old", "0")])
  /\ fs_calls (events (snd (backup_file (mkDirectBackupTask "d" "e")
                                        (sample_world ""))))
     = [Rmtree "e"; Copytree "d" "e"]
  /\ lookup (fs (snd (backup_file (mkDirectBackupTask "d" "e")
                                  (sample_world "")))) "e"
     = Some (Dir [("x", "1")]).
Proof.
  split; [reflexivity | split; [reflexivity | split; [reflexivity |]]].
  destruct (@directory_is_replaced disk SampleFS "d" "e" (sample_world "")
              eq_refl eq_refl)
    as (Hremoved & _ & _).
  destruct (Hremoved eq_refl (remove (sample_disk "") "e") eq_refl)
    as (_ & Hfs & Hcalls).
  split; [exact Hcalls | now rewrite Hfs].
Defined.

(** C7 as stated does not hold when the removal raises.  The source
    [d] is a directory and the destination [a.txt] exists, as a regular
    file: [shutil.rmtree] refuses it, the error leaves the executor, the
    destination is not removed and the source is not copied. *)
Lemma directory_over_a_file_is_not_copied :
  os_path_isdir (fs (sample_world "")) "d" = true
  /\ os_path_exists (fs (sample_world "")) "a.txt" = true
  /\ fst (backup_file (mkDirectBackupTask "d" "a.txt") (sample_world ""))
     = inl (OSError "NotADirectoryError" "a.txt")
  /\ fs_calls (events (snd (backup_file (mkDirectBackupTask "d" "a.txt")
                                        (sample_world ""))))
     = [Rmtree "a.txt"]
  /\ lookup (fs (snd (backup_file (mkDirectBackupTask "d" "a.txt")
                                  (sample_world "")))) "a.txt"
     = Some (File "hello").
Proof.
  split; [| split; [| split; [| split]]]; vm_compute; reflexivity.
Qed.

(** In [copy_and_recurrence] the statement with a recurrence is handled
    from the world the copy of the first statement left. *)
Lemma parse_run_on_sample :
  App_parse_run sample_parse (mkApp copy_and_recurrence [])
                (sample_world copy_and_recurrence)
  = bind (parse_run_inst (mkApp copy_and_recurrence [])
            (every_statement "instruction"
               (Token "PATH" "d") (Token "PATH" "e")
               (Tree "every_nb_minutes" [Token "INT" "2"])))
         (fun self2 => for_fold [] parse_run_inst self2)
         (snd (for_fold
                 [Tree "instruction"
                    [Token "PATH" "a.txt"; Token "PATH" "b.txt"]]
                 parse_run_inst (mkApp copy_and_recurrence [])
                 (sample_world copy_and_recurrence))).
Proof.
  assert (Hg : read_text (fs (sample_world copy_and_recurrence))
                         "backup_dsl.ebnf" = inr "start: instruction*")
    by reflexivity.
  assert (Ht : sample_parse "start: instruction*"
                 (_program (mkApp (FS := disk) copy_and_recurrence []))
               = inr (Tree "start"
                        ([Tree "instruction"
                            [Token "PATH" "a.txt"; Token "PATH" "b.txt"]]
                         ++ every_statement "instruction"
                              (Token "PATH" "d") (Token "PATH" "e")
                              (Tree "every_nb_minutes" [Token "INT" "2"])
                            :: [])))
    by (vm_compute; reflexivity).
  assert (Hbefore : for_fold
                      [Tree "instruction"
                         [Token "PATH" "a.txt"; Token "PATH" "b.txt"]]
                      parse_run_inst (mkApp copy_and_recurrence [])
                      (sample_world copy_and_recurrence)
                    = (inr (mkApp copy_and_recurrence []),
                       snd (for_fold
                              [Tree "instruction"
                                 [Token "PATH" "a.txt"; Token "PATH" "b.txt"]]
                              parse_run_inst (mkApp copy_and_recurrence [])
                              (sample_world copy_and_recurrence))))
    by (vm_compute; reflexivity).
  exact (proj1 (@parse_run_handles_each_statement disk SampleFS sample_parse
                  (mkApp copy_and_recurrence []) (mkApp copy_and_recurrence [])
                  "start: instruction*" _ _ _ _
                  (sample_world copy_and_recurrence) _
                  Hg Ht eq_refl Hbefore)).
Defined.

(** C3 as stated does not hold of [_parse_run].  On the two statements
    of [copy_and_recurrence] it does not return an instruction list: it
    copies [a.txt] to [b.txt] and reads the clock to stamp the task of the
    second statement. *)
Lemma parse_run_executes_and_stamps :
  fs_calls (events (snd (App_parse_run sample_parse
                           (mkApp copy_and_recurrence [])
                           (sample_world copy_and_recurrence))))
  = [Copy2 "a.txt" "b.txt"]
  /\ lookup (fs (snd (App_parse_run sample_parse
                         (mkApp copy_and_recurrence [])
                         (sample_world copy_and_recurrence)))) "b.txt"
     = Some (File "hello")
  /\ reads (snd (App_parse_run sample_parse (mkApp copy_and_recurrence [])
                               (sample_world copy_and_recurrence))) = 1%nat
  /\ match fst (App_parse_run sample_parse (mkApp copy_and_recurrence [])
                              (sample_world copy_and_recurrence)) with
     | inr app => map _creation_date (_conditional_backups app)
     | inl _ => []
     end = [minute_clock 0].
Proof. split; [| split; [| split]]; vm_compute; reflexivity. Qed.

(** The text [missing_to] starts with a statement of the grammar and is
    refused for its second line: nothing of it is run. *)
Lemma malformed_program_on_sample :
  sample_parse "start: instruction*" missing_to = inl (UnexpectedInput "backup")
  /\ App_init sample_parse "prog" (sample_world missing_to)
     = (inl (UnexpectedInput "backup"), sample_world missing_to)
  /\ main sample_parse "prog" 5 (sample_world missing_to)
     = (inl (UnexpectedInput "backup"), sample_world missing_to).
Proof.
  split; [vm_compute; reflexivity |].
  exact (@malformed_program_halts disk SampleFS sample_parse "prog" missing_to
           "start: instruction*" (UnexpectedInput "backup") 5
           (sample_world missing_to)
           ltac:(vm_compute; reflexivity) ltac:(vm_compute; reflexivity)
           ltac:(vm_compute; reflexivity) ltac:(vm_compute; reflexivity)).
Defined.

(** The two statements of [two_copies] are executed in order and
    [App.run] returns. *)
Lemma unconditional_program_on_sample :
  _conditional_backups (mkApp (FS := disk) two_copies []) = []
  /\ executed_in_order
       [mkBackupInstruction "a.txt" "b.txt" None;
        mkBackupInstruction "d" "e" None]
       (sample_world two_copies)
       (snd (App_init sample_parse "prog" (sample_world two_copies)))
  /\ forall ticks : nat,
       App_run ticks (mkApp two_copies [])
               (snd (App_init sample_parse "prog" (sample_world two_copies)))
       = (inr Returned,
          snd (App_init sample_parse "prog" (sample_world two_copies))).
Proof.
  exact (@unconditional_program_runs_once disk SampleFS sample_parse
           "prog" two_copies
           "start: instruction*"
           (Tree "start"
              [Tree "instruction" [Token "PATH" "a.txt"; Token "PATH" "b.txt"];
               Tree "instruction" [Token "PATH" "d"; Token "PATH" "e"]])
           [Tree "instruction" [Token "PATH" "a.txt"; Token "PATH" "b.txt"];
            Tree "instruction" [Token "PATH" "d"; Token "PATH" "e"]]
           [mkBackupInstruction "a.txt" "b.txt" None;
            mkBackupInstruction "d" "e" None]
           (mkApp two_copies [])
           (sample_world two_copies)
           (snd (App_init sample_parse "prog" (sample_world two_copies)))
           ltac:(vm_compute; reflexivity) ltac:(vm_compute; reflexivity)
           ltac:(vm_compute; reflexivity) ltac:(vm_compute; reflexivity)
           ltac:(vm_compute; reflexivity) ltac:(vm_compute; reflexivity)
           ltac:(repeat constructor) ltac:(vm_compute; reflexivity)).
Defined.

(** C4 as stated does not hold when an execution raises.  Both
    statements of [self_copy_first] lack a time expression; the first
    copies a file onto itself, [shutil.copy2] raises, the error leaves the
    load, and the second statement is never executed: [b.txt] is not
    created. *)
Lemma unconditional_program_stops_at_error :
  and_then (and_then (sample_parse "start: instruction*" self_copy_first)
                     node_children) instructions_of_trees
  = inr [mkBackupInstruction "a.txt" "a.txt" None;
         mkBackupInstruction "a.txt" "b.txt" None]
  /\ fst (App_init sample_parse "prog" (sample_world self_copy_first))
     = inl (OSError "SameFileError" "a.txt")
  /\ fs_calls (events (snd (App_init sample_parse "prog"
                                     (sample_world self_copy_first))))
     = [Copy2 "a.txt" "a.txt"]
  /\ lookup (fs (snd (App_init sample_parse "prog"
                               (sample_world self_copy_first)))) "b.txt"
     = None.
Proof. split; [| split; [| split]]; vm_compute; reflexivity. Qed.

(** The recurrences of a statement [backup d to e : every 3 hours]. *)
Lemma recurrence_forms_on_sample :
  sample_parse "start: instruction*" "backup d to e : every 3 hours"
  = inr (Tree "start"
           [every_statement "instruction" (Token "PATH" "d") (Token "PATH" "e")
                            (Tree "every_nb_hours" [Token "INT" "3"])])
  /\ int_str "3" = inr 3
  /\ parse_run_inst (mkApp "" [])
       (every_statement "instruction" (Token "PATH" "d") (Token "PATH" "e")
                        (Tree "every_nb_hours" [Token "INT" "3"]))
       (sample_world "")
     = registered (mkApp "" []) "d" "e" (every_minutes 180) (sample_world "").
Proof.
  assert (Hint : int_str "3" = inr 3) by (vm_compute; reflexivity).
  split; [vm_compute; reflexivity | split; [exact Hint |]].
  exact (proj1 (proj2 (proj2
           (recurrence_forms_are_every_minutes (mkApp "" [])
              "instruction" "PATH" "PATH" "INT" "d" "e" "3" [] 3
              (sample_world "") Hint)))).
Defined.

(** The first task copies a file onto itself: its error ends the run in
    the first pass, and the second task is not run. *)
Lemma task_error_on_sample :
  backup_file self_copy_task (sample_world "")
  = (inl (OSError "SameFileError" "a.txt"),
     snd (backup_file self_copy_task (sample_world "")))
  /\ App_run 3 (mkApp "" [self_copy_task; copy_task]) (sample_world "")
     = (inl (OSError "SameFileError" "a.txt"),
        snd (backup_file self_copy_task (sample_world ""))).
Proof.
  assert (Hraise : backup_file self_copy_task (sample_world "")
                   = (inl (OSError "SameFileError" "a.txt"),
                      snd (backup_file self_copy_task (sample_world ""))))
    by (vm_compute; reflexivity).
  split; [exact Hraise |].
  exact (@task_error_ends_run disk SampleFS
           (mkApp "" [self_copy_task; copy_task])
           [] [copy_task] self_copy_task (OSError "SameFileError" "a.txt")
           0 2 (sample_world "") (sample_world "") (sample_world "")
           (snd (backup_file self_copy_task (sample_world "")))
           eq_refl eq_refl eq_refl Hraise).
Defined.

(** C2 as stated does not hold.  Both statements of
    [self_copy_every_minute] are registered; in the first pass the first
    task copies a file onto itself and [shutil.copy2] raises.  The error
    leaves the script: no error record is logged, the second task is not
    run ([b.txt] is not created), and the loop never reaches its sleep. *)
Lemma task_error_is_not_recovered :
  fst (main sample_parse "prog" 3 (sample_world self_copy_every_minute))
  = inl (OSError "SameFileError" "a.txt")
  /\ fs_calls (events (snd (main sample_parse "prog" 3
                                 (sample_world self_copy_every_minute))))
     = [Copy2 "a.txt" "a.txt"]
  /\ existsb is_error_record
       (events (snd (main sample_parse "prog" 3
                          (sample_world self_copy_every_minute)))) = false
  /\ existsb is_sleep
       (events (snd (main sample_parse "prog" 3
                          (sample_world self_copy_every_minute)))) = false
  /\ lookup (fs (snd (main sample_parse "prog" 3
                           (sample_world self_copy_every_minute)))) "b.txt"
     = None.
Proof.
  split; [| split; [| split; [| split]]]; vm_compute; reflexivity.
Qed.

(** *** The scenarios of the specification *)

(** Scenario 1: one statement without a time expression is copied at
    once and the script returns. *)
Example scenario_immediate_copy :
  fst (main sample_parse "prog" 4 (sample_world "backup a.txt to b.txt"))
  = inr Returned
  /\ fs_calls (events (snd (main sample_parse "prog" 4
                                 (sample_world "backup a.txt to b.txt"))))
     = [Copy2 "a.txt" "b.txt"]
  /\ lookup (fs (snd (main sample_parse "prog" 4
                           (sample_world "backup a.txt to b.txt")))) "b.txt"
     = Some (File "hello").
Proof. split; [| split]; vm_compute; reflexivity. Qed.

(** Scenario 2: with [every 1 minutes] nothing is copied at the load and
    the file is copied at each of the three passes observed. *)
Example scenario_every_minute :
  fs_calls (events (snd (App_init sample_parse "prog"
                           (sample_world "backup a.txt to b.txt : every 1 minutes"))))
  = []
  /\ fst (main sample_parse "prog" 3
               (sample_world "backup a.txt to b.txt : every 1 minutes"))
     = inr Polling
  /\ fs_calls (events (snd (main sample_parse "prog" 3
                 (sample_world "backup a.txt to b.txt : every 1 minutes"))))
     = [Copy2 "a.txt" "b.txt"; Copy2 "a.txt" "b.txt"; Copy2 "a.txt" "b.txt"].
Proof. split; [| split]; vm_compute; reflexivity. Qed.

(** Scenario 3: a task [at 12:02], registered at 12:00 and polled at
    12:01, 12:02 and 12:03, runs at the second pass alone. *)
Example scenario_fixed_time :
  fs_calls (events (snd (main sample_parse "prog" 1
                           (sample_world "backup d to e : at 12:02"))))
  = []
  /\ fs_calls (events (snd (main sample_parse "prog" 2
                              (sample_world "backup d to e : at 12:02"))))
     = [Rmtree "e"; Copytree "d" "e"]
  /\ fs_calls (events (snd (main sample_parse "prog" 3
                              (sample_world "backup d to e : at 12:02"))))
     = [Rmtree "e"; Copytree "d" "e"].
Proof. split; [| split]; vm_compute; reflexivity. Qed.

(** *** Further runs on the sample worlds *)


Lemma lookup_remove (d : disk) (p : string) : lookup (remove d p) p = None.
Proof.
  induction d as [| [q e] d IH]; [reflexivity |].
  cbn [remove]. destruct (q =? p)%string eqn:Hq; [exact IH |].
  cbn [lookup]. now rewrite Hq.
Qed.

Lemma sample_rmtree_removes (p : string) (d d' : disk) :
  shutil_rmtree p d = (inr tt, d') -> os_path_exists d' p = false.
Proof.
  cbn [shutil_rmtree os_path_exists SampleFS].
  unfold sample_rmtree, sample_exists.
  destruct (lookup d p) as [[c | ms] |]; try discriminate.
  intros [= <-]. now rewrite lookup_remove.
Qed.

Lemma sample_copytree_needs_source (s t : string) (d : disk) :
  os_path_exists d s = false ->
  exists e : exn, shutil_copytree s t d = (inl e, d).
Proof.
  cbn [shutil_copytree os_path_exists SampleFS].
  unfold sample_copytree, sample_exists.
  destruct (lookup d s); [discriminate |].
  intros _. eexists; reflexivity.
Qed.

(** The directory [d] backed up onto itself is gone. *)
Lemma directory_onto_itself_on_sample :
  os_path_isdir (fs (sample_world "")) "d" = true
  /\ os_path_exists
       (fs (snd (backup_file (mkDirectBackupTask "d" "d") (sample_world ""))))
       "d" = false
  /\ fs_calls (events (snd (backup_file (mkDirectBackupTask "d" "d")
                                        (sample_world ""))))
     = [Rmtree "d"; Copytree "d" "d"].
Proof.
  split; [reflexivity |].
  destruct (@directory_onto_itself_is_removed disk SampleFS "d"
              (remove (sample_disk "") "d") (sample_world "")
              sample_rmtree_removes sample_copytree_needs_source
              eq_refl eq_refl eq_refl) as (_ & _ & Hgone & Hcalls).
  split; [exact Hgone | exact Hcalls].
Defined.

(** [at 25 : 99] is registered as it is written. *)
Lemma fixed_time_statement_on_sample :
  int_str "25" = inr 25
  /\ int_str "99" = inr 99
  /\ parse_run_inst (mkApp "" [])
       (Tree "instruction"
          [Token "PATH" "d"; Token "PATH" "e";
           Tree "precise_time_expression" [Token "INT" "25"; Token "INT" "99"]])
       (sample_world "")
     = registered (mkApp "" []) "d" "e" (specific_time 25 99) (sample_world "").
Proof.
  assert (Hh : int_str "25" = inr 25) by (vm_compute; reflexivity).
  assert (Hm : int_str "99" = inr 99) by (vm_compute; reflexivity).
  split; [exact Hh | split; [exact Hm |]].
  exact (@fixed_time_statement_registers disk SampleFS (mkApp "" [])
           "instruction" "PATH" "PATH" "INT" "INT" "d" "e" "25" "99" [] 25 99
           (sample_world "") Hh Hm).
Defined.

(** A task [at 25 : 00] asked at noon does nothing. *)
Lemma out_of_range_time_on_sample :
  backup_file {| _creation_date := minute_clock 0;
                 _backup_task := mkDirectBackupTask "d" "e";
                 _time_condition := specific_time 25 0 |} (sample_world "")
  = (inr tt, after_now (sample_world "")).
Proof.
  apply (@out_of_range_time_never_runs disk SampleFS 25 0);
    cbn [sample_world clock reads minute_clock hour minute Z.of_nat]; lia.
Defined.

(** A statement whose time expression carries the rule [weekly], and one
    whose recurrence carries the rule [every_day], are dropped. *)
Lemma unknown_time_expression_on_sample :
  parse_run_inst (mkApp "" [])
    (Tree "instruction"
       [Token "PATH" "d"; Token "PATH" "e"; Tree "weekly" []])
    (sample_world "")
  = (inr (mkApp "" []),
     after_event (Log INFO "Registering backup task with time condition")
                 (sample_world ""))
  /\ parse_run_inst (mkApp "" [])
       (Tree "instruction"
          [Token "PATH" "d"; Token "PATH" "e";
           Tree "avg_time_expresion" [Tree "every_day" []]])
       (sample_world "")
     = (inr (mkApp "" []),
        after_event (Log INFO "Registering backup task with time condition")
                    (sample_world "")).
Proof.
  exact (@unknown_time_expression_is_dropped disk SampleFS (mkApp "" [])
           "instruction" "PATH" "PATH" "d" "e" "weekly" "every_day"
           [] [] [] [] (sample_world "") eq_refl eq_refl).
Defined.

(** The path [nothing.txt] is not a file: the script stops on the
    [assert]. *)
Lemma startup_error_on_sample :
  os_path_isfile (fs (sample_world two_copies)) "nothing.txt" = false
  /\ main sample_parse "nothing.txt" 3 (sample_world two_copies)
     = (inl AssertionError, sample_world two_copies).
Proof.
  split; [reflexivity |].
  exact (proj2 (@startup_error_changes_nothing disk SampleFS sample_parse
                  "nothing.txt" AssertionError 3 (sample_world two_copies)
                  (or_introl (conj eq_refl eq_refl)))).
Defined.

(** The load of [copy_and_recurrence] registers the second statement,
    stamped with the first reading of the clock. *)
Lemma load_registers_on_sample :
  _conditional_backups
    (mkApp (FS := disk) copy_and_recurrence
       [ {| _creation_date := minute_clock 0;
            _backup_task := mkDirectBackupTask "d" "e";
            _time_condition := every_minutes 2 |} ])
  = tasks_from minute_clock 0
      [mkBackupInstruction "a.txt" "b.txt" None;
       mkBackupInstruction "d" "e" (Some (EveryNMinutes 2))]
  /\ reads (snd (App_init sample_parse "prog"
                          (sample_world copy_and_recurrence))) = 1%nat.
Proof.
  assert (Hinit : App_init sample_parse "prog"
                           (sample_world copy_and_recurrence)
                  = (inr (mkApp copy_and_recurrence
                            [ {| _creation_date := minute_clock 0;
                                 _backup_task := mkDirectBackupTask "d" "e";
                                 _time_condition := every_minutes 2 |} ]),
                     snd (App_init sample_parse "prog"
                                   (sample_world copy_and_recurrence))))
    by (lazy -[every_minutes]; reflexivity).
  assert (Hfile : os_path_isfile (fs (sample_world copy_and_recurrence)) "prog"
                  = true) by reflexivity.
  assert (Hprog : read_text (fs (sample_world copy_and_recurrence)) "prog"
                  = inr copy_and_recurrence) by reflexivity.
  assert (Hg : read_text (fs (sample_world copy_and_recurrence))
                         "backup_dsl.ebnf" = inr "start: instruction*")
    by reflexivity.
  assert (Ht : sample_parse "start: instruction*" copy_and_recurrence
               = inr (Tree "start"
                        [Tree "instruction"
                           [Token "PATH" "a.txt"; Token "PATH" "b.txt"];
                         every_statement "instruction"
                           (Token "PATH" "d") (Token "PATH" "e")
                           (Tree "every_nb_minutes" [Token "INT" "2"])]))
    by (vm_compute; reflexivity).
  assert (His : instructions_of_trees
                  [Tree "instruction"
                     [Token "PATH" "a.txt"; Token "PATH" "b.txt"];
                   every_statement "instruction"
                     (Token "PATH" "d") (Token "PATH" "e")
                     (Tree "every_nb_minutes" [Token "INT" "2"])]
                = inr [mkBackupInstruction "a.txt" "b.txt" None;
                       mkBackupInstruction "d" "e" (Some (EveryNMinutes 2))])
    by (vm_compute; reflexivity).
  destruct (@load_registers_in_order disk SampleFS sample_parse
              "prog" copy_and_recurrence "start: instruction*" _ _ _ _
              (sample_world copy_and_recurrence) _
              Hfile Hprog Hg Ht eq_refl His Hinit)
    as (_ & Htasks & _ & Hreads).
  split; [exact Htasks | exact Hreads].
Defined.

(** The load of [self_copy_every_minute] registers its two statements
    and calls nothing. *)
Lemma conditional_program_on_sample :
  App_init sample_parse "prog" (sample_world self_copy_every_minute)
  = (inr {| _program := self_copy_every_minute;
            _conditional_backups :=
              tasks_from minute_clock 0
                [mkBackupInstruction "a.txt" "a.txt" (Some EveryMinute);
                 mkBackupInstruction "a.txt" "b.txt" (Some EveryMinute)] |},
     mkWorld (sample_disk self_copy_every_minute) minute_clock 2
       [Log INFO "Registering backup task with time condition";
        Log INFO "Registering backup task with time condition"]).
Proof.
  assert (Ht : sample_parse "start: instruction*" self_copy_every_minute
               = inr (Tree "start"
                        [every_statement "instruction"
                           (Token "PATH" "a.txt") (Token "PATH" "a.txt")
                           (Tree "every_minute" []);
                         every_statement "instruction"
                           (Token "PATH" "a.txt") (Token "PATH" "b.txt")
                           (Tree "every_minute" [])]))
    by (vm_compute; reflexivity).
  assert (His : instructions_of_trees
                  [every_statement "instruction"
                     (Token "PATH" "a.txt") (Token "PATH" "a.txt")
                     (Tree "every_minute" []);
                   every_statement "instruction"
                     (Token "PATH" "a.txt") (Token "PATH" "b.txt")
                     (Tree "every_minute" [])]
                = inr [mkBackupInstruction "a.txt" "a.txt" (Some EveryMinute);
                       mkBackupInstruction "a.txt" "b.txt" (Some EveryMinute)])
    by (vm_compute; reflexivity).
  assert (Hall : Forall (fun i => condition i <> None)
                   [mkBackupInstruction "a.txt" "a.txt" (Some EveryMinute);
                    mkBackupInstruction "a.txt" "b.txt" (Some EveryMinute)])
    by (repeat constructor; discriminate).
  exact (proj1 (@conditional_program_only_registers disk SampleFS sample_parse
                  "prog" self_copy_every_minute "start: instruction*" _ _ _
                  (sample_world self_copy_every_minute)
                  eq_refl eq_refl eq_refl Ht eq_refl His Hall)).
Defined.

(** Two passes over one task read the clock twice and sleep twice. *)
Lemma poll_passes_on_sample :
  reads (snd (poll 2 (mkApp "" [copy_task]) (sample_world ""))) = 2%nat
  /\ sleeps (events (snd (poll 2 (mkApp "" [copy_task]) (sample_world ""))))
     = 2%nat.
Proof.
  assert (Hbuilt : Forall built_by_parse_run
                     (_conditional_backups (mkApp "" [copy_task]))).
  { constructor; [| constructor].
    exists (EveryNMinutes 1). intros d w. reflexivity. }
  assert (Hpoll : poll 2 (mkApp "" [copy_task]) (sample_world "")
                  = (inr Polling,
                     snd (poll 2 (mkApp "" [copy_task]) (sample_world ""))))
    by (vm_compute; reflexivity).
  destruct (@poll_passes_read_and_sleep disk SampleFS (mkApp "" [copy_task]) 2
              Polling (sample_world "") _ Hbuilt Hpoll)
    as (_ & _ & Hreads & Hsleeps).
  split; [exact Hreads | exact Hsleeps].
Defined.

(** A task [every 5 minutes] asked at the instant of its creation is
    due. *)
Lemma task_is_due_on_sample :
  @every_minutes disk 5 (minute_clock 0) (sample_world "")
  = (inr true, after_now (sample_world "")).
Proof.
  assert (Hn : 5 <> 0) by discriminate.
  assert (Hwindow : - 60000000
                    < to_us (clock (sample_world "") (reads (sample_world "")))
                      - to_us (minute_clock 0) < 60000000)
    by (vm_compute; split; reflexivity).
  exact (proj1 (proj2 (@task_is_due_within_first_minute disk SampleFS 5
                         (minute_clock 0) (mkDirectBackupTask "a.txt" "b.txt")
                         (sample_world "") Hn) Hwindow)).
Defined.

(** Five calls of [logger()] on a root logger without handlers leave the
    two handlers when the first call opens the log file, and none when it
    cannot, even though the later calls could. *)
Lemma logger_configures_once_on_sample :
  Logger.root_handlers
    (Logger.calls [inr tt; inr tt; inr tt; inr tt; inr tt]
                  (Logger.mkState 30 [] None))
  = [Logger.file_handler; Logger.stream_handler]
  /\ Logger.root_handlers
       (Logger.calls [inl (OSError "PermissionError" "backup_activity.log");
                      inr tt; inr tt; inr tt; inr tt]
                     (Logger.mkState 30 [] None))
     = [].
Proof.
  split.
  - exact (proj1 (proj2 (logger_configures_once (inr tt) (inr tt)
                           [inr tt; inr tt; inr tt; inr tt]
                           (Logger.mkState 30 [] None) eq_refl))).
  - exact (proj1 (proj2 (logger_configures_once
                           (inl (OSError "PermissionError"
                                         "backup_activity.log"))
                           (inr tt) [inr tt; inr tt; inr tt; inr tt]
                           (Logger.mkState 30 [] None) eq_refl))).
Defined.

(** A DEBUG record then goes to the file handler alone. *)
Lemma debug_records_on_sample :
  Logger.handled_by (snd (Logger.logger (inr tt) (Logger.mkState 30 [] None)))
                    DEBUG
  = [Logger.file_handler].
Proof.
  exact (debug_records_go_to_the_file_only (Logger.mkState 30 [] None) DEBUG
           eq_refl).
Defined.
